(** * The query-classification and context-resolution pipeline

    A shallow embedding of [llama_mcp_server.py] (the resolution service)
    and [llama_client_app.py] (the orchestrating client), and the
    properties their specification states about them.

    Python strings are sequences of Unicode code points, Python values
    coming out of [response.json()] are dynamically typed, and the two
    backends (the GitHub contents API and the model server) are outside
    the program: they appear here as the answers they may give. *)

From Stdlib Require Import String Ascii DecimalString.
From Stdlib Require Import List NArith ZArith Bool Lia Permutation.
From Stdlib Require Import PrimFloat.
Import ListNotations.

Set Implicit Arguments.
Set Default Proof Using "Type".
#[local] Set Warnings "-register-all,-inexact-float".

(** ** Strings *)

(** A Python [str]: a sequence of code points. *)
Definition char := N.
Definition str := list char.

(** An ASCII literal of the source, code point by code point. *)
Definition lit (s : string) : str := map N_of_ascii (list_ascii_of_string s).
Definition chr (a : ascii) : char := N_of_ascii a.
Arguments lit s%_string.
Arguments chr a%_char.

Definition newline : char := 10%N.

(** [a == b] on two strings. *)
Fixpoint str_eqb (a b : str) : bool :=
  match a, b with
  | [], [] => true
  | x :: a', y :: b' => N.eqb x y && str_eqb a' b'
  | _, _ => false
  end.

(** [s.startswith(p)] *)
Fixpoint starts_with (p s : str) : bool :=
  match p, s with
  | [], _ => true
  | _ :: _, [] => false
  | a :: p', b :: s' => N.eqb a b && starts_with p' s'
  end.

(** [p in s] on two strings: [p] occurs in [s] as a contiguous run. *)
Fixpoint contains (p s : str) : bool :=
  starts_with p s ||
  match s with
  | [] => false
  | _ :: s' => contains p s'
  end.

(** [sep.join(items)] on a list of strings. *)
Fixpoint join (sep : str) (items : list str) : str :=
  match items with
  | [] => []
  | [x] => x
  | x :: rest => x ++ sep ++ join sep rest
  end.

(** [str(n)] of an integer. *)
Definition decimal (z : Z) : str := lit (NilZero.string_of_int (Z.to_int z)).

Definition is_ascii (c : char) : bool := N.ltb c 128.

Definition ascii_lower (c : char) : char :=
  if N.leb 65 c && N.leb c 90 then (c + 32)%N else c.

(** [\s] of [re] on a [str] pattern: the code points [str.isspace] accepts. *)
Definition is_space (c : char) : bool :=
  (N.leb 9 c && N.leb c 13) || (N.leb 28 c && N.leb c 32)
  || N.eqb c 133 || N.eqb c 160 || N.eqb c 5760
  || (N.leb 8192 c && N.leb c 8202)
  || N.eqb c 8232 || N.eqb c 8233 || N.eqb c 8239 || N.eqb c 8287
  || N.eqb c 12288.

(** ** Regular expressions

    The fragment of [re] syntax the two files use: literal characters,
    [[...]+] over a character class, [?] and capturing groups.  Matching
    is by backtracking; [exec] lists the ways a pattern matches at the
    start of the input in the order the backtracking matcher tries them
    (a greedy [+] longest run first, a greedy [?] the present case
    first), each with the groups it captured and the input left over.
    Neither pattern of the program has a group under a [?], so the groups
    of a match are the texts of its groups in order. *)

Inductive regex : Type :=
| Chars (l : str)
| OneOrMore (cls : char -> bool)
| Maybe (r : regex)
| Capture (r : regex)
| Seq (r1 r2 : regex).

Declare Scope regex_scope.
Delimit Scope regex_scope with re.
Bind Scope regex_scope with regex.
Notation "r1 +++ r2" := (Seq r1 r2) (at level 60, right associativity) : regex_scope.

(** The input left after each non-empty run of [cls] characters, longest run first. *)
Fixpoint one_or_more (cls : char -> bool) (s : str) : list str :=
  match s with
  | [] => []
  | c :: s' => if cls c then one_or_more cls s' ++ [s'] else []
  end.

(** What was read of [s] when [rest] is left. *)
Definition consumed (s rest : str) : str := firstn (length s - length rest) s.

Fixpoint exec (r : regex) (s : str) : list (list str * str) :=
  match r with
  | Chars l => if starts_with l s then [([], skipn (length l) s)] else []
  | OneOrMore cls => map (fun rest => ([], rest)) (one_or_more cls s)
  | Maybe r' => exec r' s ++ [([], s)]
  | Capture r' => map (fun '(g, rest) => (consumed s rest :: g, rest)) (exec r' s)
  | Seq r1 r2 =>
      flat_map (fun '(g1, s1) => map (fun '(g2, s2) => (g1 ++ g2, s2)) (exec r2 s1))
               (exec r1 s)
  end.

(** A match object: [group(0)] and the numbered groups [group(1)], [group(2)], ... *)
Record Match : Type := { group0 : str; groups : list str }.

(** [re.match(pattern, s)]: the first match at the start of [s]. *)
Definition re_match (r : regex) (s : str) : option Match :=
  match exec r s with
  | [] => None
  | (g, rest) :: _ => Some {| group0 := consumed s rest; groups := g |}
  end.

(** [re.search(pattern, s)]: the first match at the leftmost position that has one. *)
Fixpoint re_search (r : regex) (s : str) : option Match :=
  match re_match r s with
  | Some m => Some m
  | None =>
      match s with
      | [] => None
      | _ :: s' => re_search r s'
      end
  end.

(** The words a pattern matches and the groups it captures on each,
    without reference to the matcher. *)
Inductive matches : regex -> str -> list str -> Prop :=
| matches_chars l : matches (Chars l) l []
| matches_more cls w :
    w <> [] -> Forall (fun c => cls c = true) w -> matches (OneOrMore cls) w []
| matches_absent r : matches (Maybe r) [] []
| matches_present r w g : matches r w g -> matches (Maybe r) w g
| matches_capture r w g : matches r w g -> matches (Capture r) w (w :: g)
| matches_seq r1 r2 w1 w2 g1 g2 :
    matches r1 w1 g1 -> matches r2 w2 g2 -> matches (Seq r1 r2) (w1 ++ w2) (g1 ++ g2).

Definition lang (r : regex) (w : str) : Prop := exists g, matches r w g.

(** ** llama_mcp_server.py: the URL parser *)

Record RepoRef : Type := { owner : str; repo : str }.

(** [[^/]] and [[^/\.]] *)
Definition not_slash (c : char) : bool := negb (N.eqb c (chr "/")).
Definition not_slash_dot (c : char) : bool :=
  negb (N.eqb c (chr "/")) && negb (N.eqb c (chr ".")).

(** [(?:https?://)?(?:www\.)?github\.com/([^/]+)/([^/\.]+)(?:\.git)?] *)
Definition repo_pattern : regex :=
  (Maybe (Chars (lit "http") +++ Maybe (Chars (lit "s")) +++ Chars (lit "://"))
   +++ Maybe (Chars (lit "www."))
   +++ Chars (lit "github.com/")
   +++ Capture (OneOrMore not_slash)
   +++ Chars (lit "/")
   +++ Capture (OneOrMore not_slash_dot)
   +++ Maybe (Chars (lit ".git")))%re.

Definition parse_github_url (url : str) : option RepoRef :=
  match re_match repo_pattern url with
  | Some m => Some {| owner := nth 0 (groups m) []; repo := nth 1 (groups m) [] |}
  | None => None
  end.

(** [[^/\s]] *)
Definition url_segment_char (c : char) : bool :=
  negb (N.eqb c (chr "/")) && negb (is_space c).

(** [https?://(?:www\.)?github\.com/[^/\s]+/[^/\s]+], the pattern both the
    server's [get_context] and the client's [generate_response] search for. *)
Definition url_pattern : regex :=
  (Chars (lit "http") +++ Maybe (Chars (lit "s")) +++ Chars (lit "://")
   +++ Maybe (Chars (lit "www."))
   +++ Chars (lit "github.com/")
   +++ OneOrMore url_segment_char
   +++ Chars (lit "/")
   +++ OneOrMore url_segment_char)%re.

(** ** Python values

    What [response.json()] returns and what the handlers build from it.
    A [PDict] lists the entries of a [dict] in insertion order. *)

Inductive pyval : Type :=
| PNone
| PBool (b : bool)
| PInt (z : Z)
| PFloat (f : float)
| PStr (s : str)
| PList (items : list pyval)
| PDict (entries : list (str * pyval)).

(** Exceptions that leave a function, by class. *)
Inductive exn : Type := TypeError | KeyError | IndexError | AttributeError.

Inductive result (A : Type) : Type :=
| Ok (a : A)
| Raise (e : exn).
Arguments Ok {A} a.
Arguments Raise {A} e.

Definition bind {A B : Type} (m : result A) (k : A -> result B) : result B :=
  match m with
  | Ok a => k a
  | Raise e => Raise e
  end.

Declare Scope py_scope.
Delimit Scope py_scope with py.
Notation "x <- m ;; k" := (bind m (fun x => k))
  (at level 61, m at next level, right associativity) : py_scope.

Fixpoint lookup (key : str) (entries : list (str * pyval)) : option pyval :=
  match entries with
  | [] => None
  | (k, v) :: rest => if str_eqb k key then Some v else lookup key rest
  end.

(** [v == "s"] for a string literal. *)
Definition is_str (s : str) (v : pyval) : bool :=
  match v with
  | PStr t => str_eqb t s
  | _ => false
  end.

(** [bool(v)] *)
Definition truthy (v : pyval) : bool :=
  match v with
  | PNone => false
  | PBool b => b
  | PInt z => negb (Z.eqb z 0)
  | PFloat f => negb (PrimFloat.eqb f 0%float)
  | PStr s => negb (str_eqb s [])
  | PList items => match items with [] => false | _ => true end
  | PDict entries => match entries with [] => false | _ => true end
  end.

(** [d.get(key, default)] *)
Definition get (d : pyval) (key : str) (default : pyval) : result pyval :=
  match d with
  | PDict entries =>
      match lookup key entries with
      | Some v => Ok v
      | None => Ok default
      end
  | _ => Raise AttributeError
  end.

(** [v[key]] for a string key. *)
Definition subscript (v : pyval) (key : str) : result pyval :=
  match v with
  | PDict entries =>
      match lookup key entries with
      | Some x => Ok x
      | None => Raise KeyError
      end
  | _ => Raise TypeError
  end.

(** [v[0]] *)
Definition first_item (v : pyval) : result pyval :=
  match v with
  | PList (x :: _) => Ok x
  | PList [] => Raise IndexError
  | PStr (c :: _) => Ok (PStr [c])
  | PStr [] => Raise IndexError
  | PDict _ => Raise KeyError
  | _ => Raise TypeError
  end.

(** ["key" in v] *)
Definition key_in (key : str) (v : pyval) : result bool :=
  match v with
  | PDict entries => Ok (match lookup key entries with Some _ => true | None => false end)
  | PList items => Ok (existsb (is_str key) items)
  | PStr s => Ok (contains key s)
  | _ => Raise TypeError
  end.

(** The items [for item in v] visits. *)
Definition iterate (v : pyval) : result (list pyval) :=
  match v with
  | PList items => Ok items
  | PDict entries => Ok (map (fun kv => PStr (fst kv)) entries)
  | PStr s => Ok (map (fun c => PStr [c]) s)
  | _ => Raise TypeError
  end.

Definition type_name (v : pyval) : str :=
  match v with
  | PNone => lit "NoneType"
  | PBool _ => lit "bool"
  | PInt _ => lit "int"
  | PFloat _ => lit "float"
  | PStr _ => lit "str"
  | PList _ => lit "list"
  | PDict _ => lit "dict"
  end.

(** [str(e)] of the [AttributeError] that [v.name] raises. *)
Definition no_attribute (v : pyval) (name : str) : str :=
  lit "'" ++ type_name v ++ lit "' object has no attribute '" ++ name ++ lit "'".

(** ** The backends

    An outbound [requests] call either raises (connection refused, a
    time-out, ...) or returns a response with a status code whose
    [.json()] gives a value or raises in turn.  The text carried by a
    failure is [str(e)] of the exception. *)

Inductive json_body : Type :=
| JsonValue (v : pyval)
| JsonFails (text : str).

Inductive http_result : Type :=
| RequestFails (text : str)
| Response (status_code : Z) (body : json_body).

(** [requests.get(url)] against the GitHub API, and
    [requests.post(LLAMA_API_URL, json=payload)] by the payload's prompt. *)
Record Upstream : Type := {
  github_get : str -> http_result;
  llama_post : str -> http_result
}.

(** ** llama_mcp_server.py: request and response models *)

Record ContextRequest : Type := {
  query_text : str;
  user_id : option str;
  session_id : option str;
  additional_context : option (list (str * pyval))
}.

Record ContextResponse : Type := {
  context_elements : list (list (str * pyval));
  metadata : option (list (str * pyval))
}.

Module GitHubListFilesResponse.
Record t : Type := {
  files : list str;
  repository : str;
  owner : str;
  success : bool;
  message : option str
}.
End GitHubListFilesResponse.

(** The folder and the page emoji (U+1F4C1, U+1F4C4), each with the space after it. *)
Definition folder_marker : str := [128193; 32]%N.
Definition file_marker : str := [128196; 32]%N.

Record GitHubListFilesRequest : Type := { repo_url : str }.

(** ** llama_client_app.py: the context client

    [AIAssistant] is handed a [ModelContextClient]; each of the two
    methods posts to the server and returns the decoded body, or
    [{"error": str(e)}] ([{"error": str(e), "success": False}] for the
    listing call) when the request fails.  A client is represented by
    what its methods return. *)

Module ModelContextClient.
Record t : Type := {
  get_context : str -> pyval;
  list_github_files : str -> pyval
}.
End ModelContextClient.

(** The calls [generate_response] makes on its client, in order. *)
Inductive call : Type :=
| ListGithubFiles (url : str)
| GetContext (query : str).

Definition traced (A : Type) : Type := (list call * result A)%type.

Definition ret {A : Type} (a : A) : traced A := ([], Ok a).
Definition lift {A : Type} (m : result A) : traced A := ([], m).

Definition tbind {A B : Type} (m : traced A) (k : A -> traced B) : traced B :=
  match m with
  | (calls, Ok a) => let (more, r) := k a in (calls ++ more, r)
  | (calls, Raise e) => (calls, Raise e)
  end.

Declare Scope client_scope.
Delimit Scope client_scope with client.
Notation "x <- m ;; k" := (tbind m (fun x => k))
  (at level 61, m at next level, right associativity) : client_scope.

Definition call_list_github_files (client : ModelContextClient.t) (url : str) : traced pyval :=
  ([ListGithubFiles url], Ok (ModelContextClient.list_github_files client url)).

Definition call_get_context (client : ModelContextClient.t) (query : str) : traced pyval :=
  ([GetContext query], Ok (ModelContextClient.get_context client query)).

(** The two outcomes of intent classification. *)
Inductive intent : Type := Listing | Generic.

(** ** JSON on the way back to the client

    A response of the server crosses the wire as JSON text in UTF-8 and
    is decoded by the client's [response.json()].  Two things do not come
    through as they were (FastAPI over pydantic 2): a string that holds a
    lone surrogate cannot be encoded, and the response is lost; a float
    that is not finite ([nan], [inf]) is written as [null]. *)

Definition is_surrogate (c : char) : bool := N.leb 55296 c && N.leb c 57343.

Definition encodable (s : str) : bool := forallb (fun c => negb (is_surrogate c)) s.

Section Traverse.

Variables (A B : Type) (f : A -> option B).

(** Every item through [f], or nothing when [f] fails on one. *)
Fixpoint traverse (l : list A) : option (list B) :=
  match l with
  | [] => Some []
  | x :: rest =>
      match f x with
      | Some y =>
          match traverse rest with
          | Some ys => Some (y :: ys)
          | None => None
          end
      | None => None
      end
  end.

End Traverse.

(** A value as it arrives, or [None] when it cannot be sent. *)
Fixpoint wire (v : pyval) : option pyval :=
  match v with
  | PStr s => if encodable s then Some (PStr s) else None
  | PFloat x => Some (if is_finite x then PFloat x else PNone)
  | PList items => option_map PList (traverse wire items)
  | PDict entries =>
      option_map PDict
        (traverse (fun kv : str * pyval =>
                     let (k, x) := kv in
                     if encodable k then option_map (pair k) (wire x) else None)
                  entries)
  | other => Some other
  end.

(** ** Sample requests, backends and clients

    The inputs the specification names in its testable properties, for
    the worked cases that follow the theorems. *)

(** An interpreter whose case tables stop at ASCII and which prints
    every float, list and dict the same way; the samples are ASCII
    strings, on which no interpreter differs from it. *)
Definition ascii_case_only : str -> str := fun s => s.
Definition plain_repr : pyval -> str := fun _ => lit "<object>".

Definition widget_url : str := lit "https://github.com/acme/widget".
Definition widget_match : Match := {| group0 := widget_url; groups := [] |}.
Definition widget_ref : RepoRef := {| owner := lit "acme"; repo := lit "widget" |}.

Definition listing_query : str := lit "list files from https://github.com/acme/widget".
Definition about_query : str := lit "tell me about https://github.com/acme/widget".
Definition mixed_case_query : str := lit "list files from https://GitHub.com/acme/widget".
Definition hidden_repo_query : str := lit "list https://github.com/acme/.github".

Definition request_for (q : str) : ContextRequest :=
  {| query_text := q; user_id := None; session_id := None; additional_context := None |}.

Definition entry (name path type : str) : pyval :=
  PDict [(lit "name", PStr name); (lit "path", PStr path); (lit "type", PStr type)].

Definition unreachable : str -> http_result :=
  fun _ => RequestFails (lit "Connection refused").

(** GitHub answers 404 with the message [Not Found]. *)
Definition github_not_found : Upstream :=
  {| github_get := fun _ =>
       Response 404 (JsonValue (PDict [(lit "message", PStr (lit "Not Found"))]));
     llama_post := unreachable |}.

(** GitHub lists one file, [readme.md], and then one directory, [src]. *)
Definition github_two_entries : Upstream :=
  {| github_get := fun _ =>
       Response 200
         (JsonValue (PList [entry (lit "readme.md") (lit "readme.md") (lit "file");
                            entry (lit "src") (lit "src") (lit "dir")]));
     llama_post := unreachable |}.

(** The model answers every prompt with [Paris.] *)
Definition model_says_paris : Upstream :=
  {| github_get := unreachable;
     llama_post := fun _ =>
       Response 200 (JsonValue (PDict [(lit "response", PStr (lit "Paris."))])) |}.

Definition list_files_answer (files : list str) (success : bool) (message : pyval) : pyval :=
  PDict [(lit "files", PList (map PStr files));
         (lit "repository", PStr (lit "widget"));
         (lit "owner", PStr (lit "acme"));
         (lit "success", PBool success);
         (lit "message", message)].

Definition context_answer (content source : str) : pyval :=
  PDict [(lit "context_elements",
          PList [PDict [(lit "content", PStr content);
                        (lit "source", PStr source);
                        (lit "relevance_score", PFloat 0.9%float)]]);
         (lit "metadata", PDict [(lit "processing_time_ms", PInt 150)])].

(** The dedicated call succeeds with no files; the context call would answer. *)
Definition empty_repository_client : ModelContextClient.t :=
  {| ModelContextClient.list_github_files := fun _ => list_files_answer [] true PNone;
     ModelContextClient.get_context := fun _ =>
       context_answer (lit "An answer from the context call.") (lit "llama_model") |}.

(** The dedicated call fails; the context call answers with one element. *)
Definition fallback_client : ModelContextClient.t :=
  {| ModelContextClient.list_github_files := fun _ =>
       list_files_answer [] false (PStr (lit "Error accessing repository: Not Found"));
     ModelContextClient.get_context := fun _ =>
       context_answer (lit "Error accessing GitHub repository: Not Found")
                      (lit "github_api_error") |}.

(** Both calls fail, the second with an error text [e]. *)
Definition failing_client (e : str) : ModelContextClient.t :=
  {| ModelContextClient.list_github_files := fun _ =>
       list_files_answer [] false (PStr (lit "Error accessing repository: Not Found"));
     ModelContextClient.get_context := fun _ => PDict [(lit "error", PStr e)] |}.

(** The URL found in [hidden_repo_query]. *)
Definition hidden_match : Match :=
  {| group0 := lit "https://github.com/acme/.github"; groups := [] |}.

(** The request the client posts to the dedicated endpoint for [widget_url]. *)
Definition widget_listing : GitHubListFilesRequest := {| repo_url := widget_url |}.

(** GitHub answers 202 with an empty object. *)
Definition github_accepted : Upstream :=
  {| github_get := fun _ => Response 202 (JsonValue (PDict []));
     llama_post := unreachable |}.

(** GitHub answers 200 with the object of one file, not with a list. *)
Definition github_answers_object : Upstream :=
  {| github_get := fun _ =>
       Response 200 (JsonValue (entry (lit "readme.md") (lit "readme.md") (lit "file")));
     llama_post := unreachable |}.

(** The dedicated call succeeds with a directory and a file. *)
Definition widget_client : ModelContextClient.t :=
  {| ModelContextClient.list_github_files := fun _ =>
       list_files_answer [folder_marker ++ lit "src"; file_marker ++ lit "readme.md"]
                         true PNone;
     ModelContextClient.get_context := fun _ =>
       context_answer (lit "An answer from the context call.") (lit "llama_model") |}.

(** The dedicated call fails; the context call answers without elements. *)
Definition silent_client : ModelContextClient.t :=
  {| ModelContextClient.list_github_files := fun _ =>
       list_files_answer [] false (PStr (lit "Error accessing repository: Not Found"));
     ModelContextClient.get_context := fun _ =>
       PDict [(lit "context_elements", PList []);
              (lit "metadata", PDict [(lit "processing_time_ms", PInt 150)])] |}.



(** The model answers every prompt with a number that is not one. *)
Definition model_says_nan : Upstream :=
  {| github_get := unreachable;
     llama_post := fun _ => Response 200 (JsonValue (PDict [(lit "response", PFloat nan)])) |}.

(** A question with a lone surrogate (U+D800) at its end. *)
Definition surrogate_query : str := lit "what is " ++ [55296%N].

Section Program.

(** Two functions of the interpreter whose tables are not part of the
    program: [str.lower()] on a string that has a code point outside
    ASCII, and [str(v)] of a float, a list or a dict. *)
Variable unicode_lower : str -> str.
Variable repr_other : pyval -> str.

(** [s.lower()] *)
Definition lower (s : str) : str :=
  if forallb is_ascii s then map ascii_lower s else unicode_lower s.

(** [f"{v}"] *)
Definition format (v : pyval) : str :=
  match v with
  | PStr s => s
  | PNone => lit "None"
  | PBool true => lit "True"
  | PBool false => lit "False"
  | PInt z => decimal z
  | _ => repr_other v
  end.

(** [sep.join(v)]: every item must be a string. *)
Fixpoint all_str (items : list pyval) : result (list str) :=
  match items with
  | [] => Ok []
  | PStr s :: rest => (strs <- all_str rest ;; Ok (s :: strs))%py
  | _ :: _ => Raise TypeError
  end.

Definition join_values (sep : str) (v : pyval) : result str :=
  (items <- iterate v ;;
   strs <- all_str items ;;
   Ok (join sep strs))%py.

(** *** query_llama (lines 46-67) *)

Definition query_llama (up : Upstream) (text : str) : pyval :=
  match llama_post up text with
  | RequestFails e => PStr (lit "Error: " ++ e)
  | Response status_code body =>
      if Z.eqb status_code 200 then
        match body with
        | JsonFails e => PStr (lit "Error: " ++ e)
        | JsonValue (PDict entries) =>
            match lookup (lit "response") entries with
            | Some v => v
            | None => PStr (lit "No response from model")
            end
        | JsonValue v => PStr (lit "Error: " ++ no_attribute v (lit "get"))
        end
      else PStr (lit "Error querying model: " ++ decimal status_code)
  end.

(** *** list_github_repo_files (lines 88-106) *)

Definition contents_url (owner repo path : str) : str :=
  lit "https://api.github.com/repos/" ++ owner ++ lit "/" ++ repo
  ++ lit "/contents/" ++ path.

Definition error_dict (reason : pyval) : pyval := PDict [(lit "error", reason)].

Definition list_github_repo_files (up : Upstream) (owner repo path : str) : pyval :=
  match github_get up (contents_url owner repo path) with
  | RequestFails e => error_dict (PStr e)
  | Response status_code body =>
      if Z.eqb status_code 200 then
        match body with
        | JsonValue contents => contents
        | JsonFails e => error_dict (PStr e)
        end
      else
        match body with
        | JsonFails e => error_dict (PStr e)
        | JsonValue (PDict entries) =>
            error_dict
              match lookup (lit "message") entries with
              | Some error_message => error_message
              | None => PStr (lit "Error: Status code " ++ decimal status_code)
              end
        | JsonValue v => error_dict (PStr (no_attribute v (lit "get")))
        end
  end.

(** *** Intent (lines 113-118 of the server, 86-90 of the client) *)

Definition github_request (q : str) : bool :=
  contains (lit "github") (lower q)
  && (contains (lit "list") (lower q) || contains (lit "files") (lower q)).

Definition classify (q : str) : intent :=
  if github_request q then
    match re_search url_pattern q with
    | Some _ => Listing
    | None => Generic
    end
  else Generic.

(** *** get_context (lines 108-195) *)

(** The loop of lines 130-134. *)
Fixpoint context_listing (items : list pyval) (file_list directory_list : list str)
  : result (list str * list str) :=
  match items with
  | [] => Ok (file_list, directory_list)
  | item :: rest =>
      (type <- subscript item (lit "type") ;;
       if is_str (lit "file") type then
         name <- subscript item (lit "name") ;;
         context_listing rest (file_list ++ [file_marker ++ format name]) directory_list
       else
         name <- subscript item (lit "name") ;;
         context_listing rest file_list (directory_list ++ [folder_marker ++ format name]))%py
  end.

Definition llama_prompt (indent : nat) (q : str) : str :=
  lit "Please provide relevant information for the following query: " ++ [newline]
  ++ repeat 32%N indent ++ q ++ [newline]
  ++ repeat 32%N indent ++ [newline]
  ++ repeat 32%N indent ++ lit "Respond with factual, helpful information.".

Definition element (content : pyval) (source : str) (relevance_score : float)
  : list (str * pyval) :=
  [(lit "content", content);
   (lit "source", PStr source);
   (lit "relevance_score", PFloat relevance_score)].

Definition listing_content (repo_info : RepoRef) (all_items : list str) : str :=
  (lit "Repository: " ++ owner repo_info ++ lit "/" ++ repo repo_info ++ [newline; newline])
  ++ (lit "Files and directories:" ++ [newline]) ++ join [newline] all_items.

Definition get_context (up : Upstream) (request : ContextRequest) : result ContextResponse :=
  let q := query_text request in
  (context_elements <-
     (if contains (lit "github") (lower q)
         && (contains (lit "list") (lower q) || contains (lit "files") (lower q))
      then
        match re_search url_pattern q with
        | Some url_match =>
            let github_url := group0 url_match in
            match parse_github_url github_url with
            | Some repo_info =>
                let files_data :=
                  list_github_repo_files up (owner repo_info) (repo repo_info) [] in
                has_error <- key_in (lit "error") files_data ;;
                if negb has_error then
                  items <- iterate files_data ;;
                  lists <- context_listing items [] [] ;;
                  let (file_list, directory_list) := lists : list str * list str in
                  let all_items := directory_list ++ file_list in
                  Ok [element (PStr (listing_content repo_info all_items))
                              (lit "github_api") 0.95%float]
                else
                  error_msg <- get files_data (lit "error")
                    (PStr (lit "Unknown error when accessing GitHub repository")) ;;
                  Ok [element
                        (PStr (lit "Error accessing GitHub repository: " ++ format error_msg))
                        (lit "github_api_error") 0.9%float]
            | None =>
                Ok [element
                      (PStr (lit "The GitHub URL provided is not valid. Please provide a URL in the format: https://github.com/owner/repo"))
                      (lit "github_url_parser") 0.9%float]
            end
        | None =>
            let llama_response := query_llama up (llama_prompt 12 q) in
            Ok [element llama_response (lit "llama_model") 0.9%float]
        end
      else
        let llama_response := query_llama up (llama_prompt 8 q) in
        Ok [element llama_response (lit "llama_model") 0.9%float]) ;;
   Ok {| context_elements := context_elements;
         metadata := Some [(lit "processing_time_ms", PInt 150); (lit "query", PStr q)] |})%py.

(** *** list_files (lines 197-236) *)

(** The loop of lines 227-229. *)
Fixpoint dedicated_listing (items : list pyval) (file_list : list str)
  : result (list str) :=
  match items with
  | [] => Ok file_list
  | item :: rest =>
      (type <- subscript item (lit "type") ;;
       let file_type_prefix := if is_str (lit "dir") type then folder_marker else file_marker in
       path <- subscript item (lit "path") ;;
       dedicated_listing rest (file_list ++ [file_type_prefix ++ format path]))%py
  end.

Definition list_files (up : Upstream) (request : GitHubListFilesRequest)
  : result GitHubListFilesResponse.t :=
  match parse_github_url (repo_url request) with
  | None =>
      Ok {| GitHubListFilesResponse.files := [];
            GitHubListFilesResponse.repository := [];
            GitHubListFilesResponse.owner := [];
            GitHubListFilesResponse.success := false;
            GitHubListFilesResponse.message :=
              Some (lit "Invalid GitHub repository URL. Please provide a URL in the format: https://github.com/owner/repo") |}
  | Some repo_info =>
      let files_data := list_github_repo_files up (owner repo_info) (repo repo_info) [] in
      (has_error <- key_in (lit "error") files_data ;;
       if has_error then
         reason <- subscript files_data (lit "error") ;;
         Ok {| GitHubListFilesResponse.files := [];
               GitHubListFilesResponse.repository := repo repo_info;
               GitHubListFilesResponse.owner := owner repo_info;
               GitHubListFilesResponse.success := false;
               GitHubListFilesResponse.message :=
                 Some (lit "Error accessing repository: " ++ format reason) |}
       else
         items <- iterate files_data ;;
         file_list <- dedicated_listing items [] ;;
         Ok {| GitHubListFilesResponse.files := file_list;
               GitHubListFilesResponse.repository := repo repo_info;
               GitHubListFilesResponse.owner := owner repo_info;
               GitHubListFilesResponse.success := true;
               GitHubListFilesResponse.message := None |})%py
  end.

(** *** AIAssistant.generate_response (client, lines 81-128) *)

Definition generate_response (client : ModelContextClient.t) (user_query : str)
  : traced pyval :=
  match github_request user_query, re_search url_pattern user_query with
  | true, Some github_url_match =>
      let github_url := group0 github_url_match in
      (result <- call_list_github_files client github_url ;;
       succeeded <- lift (get result (lit "success") (PBool false)) ;;
       if truthy succeeded then
         files <- lift (get result (lit "files") (PList [])) ;;
         if truthy files then
           owner <- lift (get result (lit "owner") PNone) ;;
           repository <- lift (get result (lit "repository") PNone) ;;
           lines <- lift (join_values [newline] files) ;;
           ret (PStr ((lit "Files in " ++ format owner ++ lit "/" ++ format repository
                       ++ lit ":" ++ [newline; newline]) ++ lines))
         else
           owner <- lift (get result (lit "owner") PNone) ;;
           repository <- lift (get result (lit "repository") PNone) ;;
           ret (PStr (lit "The repository " ++ format owner ++ lit "/" ++ format repository
                      ++ lit " appears to be empty."))
       else
         context_data <- call_get_context client user_query ;;
         has_error <- lift (key_in (lit "error") context_data) ;;
         if has_error : bool then
           message <- lift (get result (lit "message") (PStr (lit "Unknown error"))) ;;
           ret (PStr (lit "Sorry, I couldn't list the GitHub repository files: "
                      ++ format message))
         else
           context_elements <- lift (get context_data (lit "context_elements") (PList [])) ;;
           if truthy context_elements then
             first <- lift (first_item context_elements) ;;
             lift (subscript first (lit "content"))
           else
             ret (PStr (lit "I couldn't retrieve any information about the GitHub repository.")))%client
  | _, _ =>
      (context_data <- call_get_context client user_query ;;
       has_error <- lift (key_in (lit "error") context_data) ;;
       if has_error : bool then
         reason <- lift (subscript context_data (lit "error")) ;;
         ret (PStr (lit "Sorry, I couldn't generate a proper response due to: "
                    ++ format reason))
       else
         context_elements <- lift (get context_data (lit "context_elements") (PList [])) ;;
         if negb (truthy context_elements) then
           ret (PStr (lit "I don't have enough information to answer that question."))
         else
           first <- lift (first_item context_elements) ;;
           lift (subscript first (lit "content")))%client
  end.

(** *** health_check (server, lines 238-258) *)

(** The answers to the two probes: [GET /api/tags] on the model server
    and [GET /rate_limit] on the GitHub API. *)
Record Probes : Type := {
  llama_tags : http_result;
  github_rate_limit : http_result
}.

Definition health_check (probes : Probes) : list (str * pyval) :=
  let llama_status :=
    match llama_tags probes with
    | Response status_code _ =>
        if Z.eqb status_code 200 then lit "connected" else lit "unavailable"
    | RequestFails e => lit "error: " ++ e
    end in
  let github_status :=
    match github_rate_limit probes with
    | Response status_code _ =>
        if Z.eqb status_code 200 then lit "connected" else lit "unavailable"
    | RequestFails e => lit "error: " ++ e
    end in
  [(lit "status",
    PStr (if str_eqb llama_status (lit "connected")
             && str_eqb github_status (lit "connected")
          then lit "healthy" else lit "degraded"));
   (lit "llama_status", PStr llama_status);
   (lit "github_status", PStr github_status)].

(** *** ModelContextClient.get_context and list_github_files (client, lines 30-75) *)

(** What a [requests.post] to the server comes to.  It raises a
    [RequestException] (no connection, the ten second time-out), or a
    response arrives: its status code, the text of the [HTTPError] that
    [raise_for_status] raises on it when the status is 4xx or 5xx, and
    its body.  A body that is not JSON makes [.json()] raise
    [requests.exceptions.JSONDecodeError], which is a [RequestException]
    (requests 2.27 and later). *)
Inductive post_result : Type :=
| PostFails (text : str)
| PostResponse (status_code : Z) (http_error : str) (body : json_body).

(** The server as the client reaches it: [POST /context] by the query
    text of the request, [POST /github/list-files] by its [repo_url]. *)
Record Server : Type := {
  post_context : str -> post_result;
  post_list_files : str -> post_result
}.

(** [response.raise_for_status()] raises. *)
Definition raise_for_status (status_code : Z) : bool :=
  Z.leb 400 status_code && Z.ltb status_code 600.

Definition http_get_context (server : Server) (query_text : str) : pyval :=
  match post_context server query_text with
  | PostFails e => PDict [(lit "error", PStr e)]
  | PostResponse status_code http_error body =>
      if raise_for_status status_code then PDict [(lit "error", PStr http_error)]
      else
        match body with
        | JsonValue v => v
        | JsonFails e => PDict [(lit "error", PStr e)]
        end
  end.

Definition http_list_github_files (server : Server) (repo_url : str) : pyval :=
  match post_list_files server repo_url with
  | PostFails e => PDict [(lit "error", PStr e); (lit "success", PBool false)]
  | PostResponse status_code http_error body =>
      if raise_for_status status_code then
        PDict [(lit "error", PStr http_error); (lit "success", PBool false)]
      else
        match body with
        | JsonValue v => v
        | JsonFails e => PDict [(lit "error", PStr e); (lit "success", PBool false)]
        end
  end.

(** A [ModelContextClient] on a server. *)
Definition http_client (server : Server) : ModelContextClient.t :=
  {| ModelContextClient.get_context := http_get_context server;
     ModelContextClient.list_github_files := http_list_github_files server |}.

(** *** main (client, lines 130-148) *)

(** How the read loop ends: the user typed [exit], the input ran out
    ([input] raises [EOFError]), or [generate_response] raised. *)
Inductive ending : Type :=
| Exited
| InputEnded
| Crashed (e : exn).

(** The loop of lines 142-148 on the lines the user types: the calls
    made on the client, the texts given to [print], and how it ends. *)
Fixpoint read_loop (client : ModelContextClient.t) (inputs : list str)
  : list call * list str * ending :=
  match inputs with
  | [] => ([], [], InputEnded)
  | user_input :: rest =>
      if str_eqb (lower user_input) (lit "exit") then ([], [], Exited)
      else
        match generate_response client user_input with
        | (calls, Ok response) =>
            let '(more, printed, e) := read_loop client rest in
            (calls ++ more,
             ([newline] ++ lit "Assistant: " ++ format response) :: printed,
             e)
        | (calls, Raise e) => (calls, [], Crashed e)
        end
  end.

Definition banner : list str :=
  [lit "AI Assistant with Llama and GitHub integration";
   lit "Type 'exit' to quit";
   lit "You can ask questions or request GitHub repository files with a query like:";
   lit "'List files from https://github.com/username/repository'"].

Definition main (client : ModelContextClient.t) (inputs : list str)
  : list call * list str * ending :=
  let '(calls, printed, e) := read_loop client inputs in
  (calls, banner ++ printed, e).

(** *** The application (server, lines 13-41, 108, 197; client, lines 11, 38-54, 68-72) *)

(** The response models as the JSON that FastAPI sends for them: the
    fields in the order of the class, [None] as [null]. *)
Definition context_response_json (r : ContextResponse) : pyval :=
  PDict [(lit "context_elements", PList (map PDict (context_elements r)));
         (lit "metadata",
          match metadata r with
          | Some md => PDict md
          | None => PNone
          end)].

Definition list_files_response_json (r : GitHubListFilesResponse.t) : pyval :=
  PDict [(lit "files", PList (map PStr (GitHubListFilesResponse.files r)));
         (lit "repository", PStr (GitHubListFilesResponse.repository r));
         (lit "owner", PStr (GitHubListFilesResponse.owner r));
         (lit "success", PBool (GitHubListFilesResponse.success r));
         (lit "message",
          match GitHubListFilesResponse.message r with
          | Some text => PStr text
          | None => PNone
          end)].

(** What the client's post sees of a handler when the server is up and
    answers within the time-out: status 200 with the response as JSON,
    or status 500, on which [raise_for_status] raises with the text
    [server_error], when the handler raised or its response cannot be
    encoded. *)
Definition served {A : Type} (to_json : A -> pyval) (server_error : str) (r : result A)
  : post_result :=
  match r with
  | Ok a =>
      match wire (to_json a) with
      | Some body => PostResponse 200 [] (JsonValue body)
      | None => PostResponse 500 server_error (JsonFails (lit "Expecting value"))
      end
  | Raise _ => PostResponse 500 server_error (JsonFails (lit "Expecting value"))
  end.

(** The request the client builds around a query (client, lines 38-43). *)
Definition request_data (query_text : str) : ContextRequest :=
  {| query_text := query_text;
     user_id := None;
     session_id := None;
     additional_context := Some [] |}.

(** The server of this repository, over the two backends, as the client
    of this repository reaches it. *)
Definition fastapi_app (up : Upstream) : Server :=
  {| post_context := fun query_text =>
       served context_response_json
         (lit "500 Server Error: Internal Server Error for url: http://localhost:8000/context")
         (get_context up (request_data query_text));
     post_list_files := fun repo_url =>
       served list_files_response_json
         (lit "500 Server Error: Internal Server Error for url: http://localhost:8000/github/list-files")
         (list_files up {| repo_url := repo_url |}) |}.

(** A server that refuses every connection. *)
Definition server_down : Server :=
  {| post_context := fun _ => PostFails (lit "Connection refused");
     post_list_files := fun _ => PostFails (lit "Connection refused") |}.

(** ** The specification's notions

    What the specification says in words, stated without reference to
    the matcher, to compare the program with. *)

(** [p] occurs in [s]. *)
Definition occurs (p s : str) : Prop := exists pre post, s = pre ++ p ++ post.

(** 4.1: [[scheme://][www.]github.com/<owner>/<repo>[.git]] at the start
    of the string, [<owner>] without [/], [<repo>] without [/] and [.];
    what follows is ignored. *)
Definition repo_url_shape (url owner repo : str) : Prop :=
  exists scheme www git rest,
    url = scheme ++ www ++ lit "github.com/" ++ owner ++ lit "/" ++ repo ++ git ++ rest
    /\ (scheme = [] \/ scheme = lit "http://" \/ scheme = lit "https://")
    /\ (www = [] \/ www = lit "www.")
    /\ (owner <> [] /\ ~ In (chr "/") owner)
    /\ (repo <> [] /\ ~ In (chr "/") repo /\ ~ In (chr ".") repo)
    /\ (git = [] \/ git = lit ".git").

Definition matches_repo_pattern (url : str) : Prop :=
  exists owner repo, repo_url_shape url owner repo.

(** A path segment of a URL inside running text: not empty, no [/], no white space. *)
Definition url_segment (w : str) : Prop :=
  w <> [] /\ ~ In (chr "/") w /\ forall c, In c w -> is_space c = false.

(** 4.2 (a), as the program reads it: [http://] or [https://], an
    optional [www.], [github.com/] and two path segments, letter for letter. *)
Definition github_url (u : str) : Prop :=
  exists scheme www owner repo,
    u = scheme ++ www ++ lit "github.com/" ++ owner ++ lit "/" ++ repo
    /\ (scheme = lit "http://" \/ scheme = lit "https://")
    /\ (www = [] \/ www = lit "www.")
    /\ url_segment owner /\ url_segment repo.

(** 4.2 (a), as the specification words it: the same with the host
    compared without regard to case. *)
Definition github_url_any_case (u : str) : Prop :=
  exists scheme host owner repo,
    u = scheme ++ host ++ lit "/" ++ owner ++ lit "/" ++ repo
    /\ (scheme = lit "http://" \/ scheme = lit "https://")
    /\ (map ascii_lower host = lit "github.com"
        \/ map ascii_lower host = lit "www.github.com")
    /\ url_segment owner /\ url_segment repo.

(** 4.2 (b): the lowercased query contains "github" and one of "list", "files". *)
Definition listing_keywords (q : str) : Prop :=
  occurs (lit "github") (lower q)
  /\ (occurs (lit "list") (lower q) \/ occurs (lit "files") (lower q)).

(** A place where a run of [cls] characters cannot go on: the end of
    the string, or a character outside [cls]. *)
Definition run_ends (cls : char -> bool) (tail : str) : Prop :=
  tail = [] \/ exists c t, tail = c :: t /\ cls c = false.




(** A field of an entry of a contents listing. *)
Definition field (name : str) (item : pyval) : pyval :=
  match subscript item name with
  | Ok v => v
  | Raise _ => PNone
  end.

(** An entry as the contents API returns it: an object with [name], [path] and [type]. *)
Definition listed_entry (item : pyval) : Prop :=
  exists name path type,
    subscript item (lit "name") = Ok name
    /\ subscript item (lit "path") = Ok path
    /\ subscript item (lit "type") = Ok type.

Definition is_file (item : pyval) : bool := is_str (lit "file") (field (lit "type") item).
Definition is_dir (item : pyval) : bool := is_str (lit "dir") (field (lit "type") item).

(** The lines the two endpoints write for an entry. *)
Definition folder_line (item : pyval) : str := folder_marker ++ format (field (lit "name") item).
Definition file_line (item : pyval) : str := file_marker ++ format (field (lit "name") item).

Definition dedicated_line (item : pyval) : str :=
  (if is_dir item then folder_marker else file_marker) ++ format (field (lit "path") item).

(** The contents API answers 200 with a list of entries. *)
Definition lists_entries (h : http_result) (items : list pyval) : Prop :=
  h = Response 200 (JsonValue (PList items)) /\ Forall listed_entry items.

(** The GitHub backend keeps to its schema: a 200 answer carries a list of entries. *)
Definition answers_with_listings (up : Upstream) : Prop :=
  forall url v,
    github_get up url = Response 200 (JsonValue v) ->
    exists items, v = PList items /\ Forall listed_entry items.

(** [elements[0].content], read the way the client reads it (line 126). *)
Definition first_content (elements : list (list (str * pyval))) : result pyval :=
  (first <- first_item (PList (map PDict elements)) ;;
   subscript first (lit "content"))%py.

(** What [get_context] returns around its elements (lines 189-195). *)
Definition context_response (elements : list (list (str * pyval))) (q : str)
  : ContextResponse :=
  {| context_elements := elements;
     metadata := Some [(lit "processing_time_ms", PInt 150); (lit "query", PStr q)] |}.

(** A query names the repository [ref] for a listing: it has the
    keywords, a URL is found in it, and the URL parses to [ref]. *)
Definition names_repository (q : str) (ref : RepoRef) : Prop :=
  github_request q = true
  /\ exists m, re_search url_pattern q = Some m /\ parse_github_url (group0 m) = Some ref.

(** The contents call did not come back with status 200. *)
Definition not_ok (h : http_result) : Prop :=
  match h with
  | RequestFails _ => True
  | Response status_code _ => status_code <> 200%Z
  end.

(** The model call gave no usable answer: the request raised, the
    status is not 200, or the body is not a JSON object. *)
Definition model_call_fails (h : http_result) : Prop :=
  match h with
  | RequestFails _ => True
  | Response status_code (JsonValue (PDict _)) => status_code <> 200%Z
  | Response _ _ => True
  end.


(** The post failed, with the text [text]: the request raised, the
    status is 4xx or 5xx, or the body is not JSON. *)
Definition post_failed (r : post_result) (text : str) : Prop :=
  match r with
  | PostFails e => text = e
  | PostResponse status_code http_error body =>
      if raise_for_status status_code then text = http_error
      else
        match body with
        | JsonFails e => text = e
        | JsonValue _ => False
        end
  end.

(** What the read loop prints for an input that is answered. *)
Definition printed_answer (client : ModelContextClient.t) (user_input : str) : str :=
  match snd (generate_response client user_input) with
  | Ok response => [newline] ++ lit "Assistant: " ++ format response
  | Raise _ => []
  end.

(** An input the read loop answers: it is not [exit], and
    [generate_response] returns on it. *)
Definition answered (client : ModelContextClient.t) (user_input : str) : Prop :=
  lower user_input <> lit "exit"
  /\ exists response, snd (generate_response client user_input) = Ok response.

(** * Properties *)

(** ** Strings *)

Lemma str_eqb_eq (a b : str) : str_eqb a b = true <-> a = b.
Proof.
  revert b. induction a as [|x a IH]; intros [|y b]; simpl; try (split; congruence).
  rewrite andb_true_iff, N.eqb_eq, IH. split.
  - now intros [-> ->].
  - intros [= -> ->]. now split.
Qed.

Lemma str_eqb_refl (a : str) : str_eqb a a = true.
Proof. now apply str_eqb_eq. Qed.

Lemma starts_with_app (p rest : str) : starts_with p (p ++ rest) = true.
Proof.
  induction p as [|a p IH]; simpl; [reflexivity|].
  now rewrite N.eqb_refl, IH.
Qed.

Lemma starts_with_split (p s : str) :
  starts_with p s = true -> s = p ++ skipn (length p) s.
Proof.
  revert s. induction p as [|a p IH]; intros [|b s] H; simpl in *;
    try reflexivity; try discriminate.
  apply andb_true_iff in H as [Hab Hps].
  apply N.eqb_eq in Hab. subst b. f_equal. now apply IH.
Qed.

Lemma starts_with_iff (p s : str) :
  starts_with p s = true <-> exists rest, s = p ++ rest.
Proof.
  split.
  - intros H. eexists. now apply starts_with_split.
  - intros [rest ->]. apply starts_with_app.
Qed.

Lemma skipn_prefix (p rest : str) : skipn (length p) (p ++ rest) = rest.
Proof. induction p; simpl; auto. Qed.

Lemma contains_iff (p s : str) : contains p s = true <-> occurs p s.
Proof.
  unfold occurs.
  induction s as [|c s IH]; simpl.
  - rewrite orb_false_r, starts_with_iff. split.
    + intros [rest H]. now exists [], rest.
    + intros (pre & post & H). symmetry in H.
      apply app_eq_nil in H as [-> H]. now exists post.
  - rewrite orb_true_iff, starts_with_iff, IH. split.
    + intros [[rest H] | (pre & post & H)].
      * now exists [], rest.
      * exists (c :: pre), post. simpl. now rewrite H.
    + intros (pre & post & H). destruct pre as [|c' pre]; simpl in H.
      * left. now exists post.
      * right. injection H as _ H. now exists pre, post.
Qed.

Lemma consumed_app (w rest : str) : consumed (w ++ rest) rest = w.
Proof.
  unfold consumed. rewrite length_app.
  replace (length w + length rest - length rest) with (length w) by lia.
  rewrite firstn_app, Nat.sub_diag, firstn_all. simpl. apply app_nil_r.
Qed.

(** ** The matcher against the words of a pattern *)

Lemma one_or_more_iff (cls : char -> bool) (s rest : str) :
  In rest (one_or_more cls s) <->
  exists w, w <> [] /\ Forall (fun c => cls c = true) w /\ s = w ++ rest.
Proof.
  revert rest. induction s as [|c s IH]; intros rest; simpl.
  - split; [intros []|]. intros (w & Hw & _ & H). symmetry in H.
    now apply app_eq_nil in H as [-> _].
  - destruct (cls c) eqn:Hc.
    + rewrite in_app_iff, IH. simpl. split.
      * intros [(w & Hw & Hall & ->) | [<- | []]].
        -- exists (c :: w). repeat split; [discriminate | now constructor].
        -- exists [c]. repeat split; [discriminate | now repeat constructor].
      * intros (w & Hw & Hall & H). destruct w as [|c' w]; [congruence|].
        simpl in H. injection H as <- ->. inversion Hall; subst.
        destruct w as [|c2 w]; [now right; left|].
        left. exists (c2 :: w). repeat split; [discriminate | assumption].
    + split; [intros []|]. intros (w & Hw & Hall & H).
      destruct w as [|c' w]; [congruence|]. simpl in H. injection H as <- _.
      inversion Hall; subst. congruence.
Qed.

Lemma exec_sound (r : regex) : forall s g rest,
  In (g, rest) (exec r s) -> exists w, s = w ++ rest /\ matches r w g.
Proof.
  induction r as [l | cls | r IH | r IH | r1 IH1 r2 IH2]; intros s g rest Hin; simpl in Hin.
  - destruct (starts_with l s) eqn:Hs; [|contradiction].
    destruct Hin as [Heq | []]. injection Heq as <- <-.
    exists l. split; [now apply starts_with_split | constructor].
  - apply in_map_iff in Hin as (rest' & Heq & Hin). injection Heq as <- ->.
    apply one_or_more_iff in Hin as (w & Hw & Hall & ->).
    exists w. split; [reflexivity | now constructor].
  - apply in_app_iff in Hin as [Hin | [Heq | []]].
    + destruct (IH _ _ _ Hin) as (w & -> & Hm). exists w. split; [reflexivity | now constructor].
    + injection Heq as <- <-. exists []. split; [reflexivity | constructor].
  - apply in_map_iff in Hin as ([g' rest'] & Heq & Hin). injection Heq as <- ->.
    destruct (IH _ _ _ Hin) as (w & -> & Hm). exists w.
    rewrite consumed_app. split; [reflexivity | now constructor].
  - apply in_flat_map in Hin as ([g1 s1] & Hin1 & Hin2).
    apply in_map_iff in Hin2 as ([g2 s2] & Heq & Hin2). injection Heq as <- ->.
    destruct (IH1 _ _ _ Hin1) as (w1 & -> & Hm1).
    destruct (IH2 _ _ _ Hin2) as (w2 & -> & Hm2).
    exists (w1 ++ w2). split; [now rewrite app_assoc | now constructor].
Qed.

Lemma exec_complete (r : regex) (w : str) (g : list str) :
  matches r w g -> forall rest, In (g, rest) (exec r (w ++ rest)).
Proof.
  induction 1 as [l | cls w Hw Hall | r | r w g _ IH | r w g _ IH
                  | r1 r2 w1 w2 g1 g2 _ IH1 _ IH2]; intros rest; simpl.
  - rewrite starts_with_app, skipn_prefix. now left.
  - apply in_map_iff. exists rest. split; [reflexivity|].
    apply one_or_more_iff. now exists w.
  - apply in_app_iff. right. now left.
  - apply in_app_iff. left. apply IH.
  - apply in_map_iff. exists (g, rest). rewrite consumed_app. split; [reflexivity | apply IH].
  - apply in_flat_map. exists (g1, w2 ++ rest). split.
    + rewrite <- app_assoc. apply IH1.
    + apply in_map_iff. exists (g2, rest). split; [reflexivity | apply IH2].
Qed.

(** [re.match] returns a match exactly when some prefix of the input is
    a word of the pattern, and what it returns is such a prefix with its groups. *)
Lemma re_match_some (r : regex) (s : str) (m : Match) :
  re_match r s = Some m ->
  exists rest, s = group0 m ++ rest /\ matches r (group0 m) (groups m).
Proof.
  unfold re_match. destruct (exec r s) as [|[g rest] tl] eqn:He; [discriminate|].
  intros [= <-]. simpl.
  destruct (@exec_sound r s g rest) as (w & -> & Hm); [rewrite He; now left|].
  rewrite consumed_app. now exists rest.
Qed.

Lemma re_match_none (r : regex) (s : str) :
  re_match r s = None <-> forall w rest, s = w ++ rest -> ~ lang r w.
Proof.
  unfold re_match. split.
  - destruct (exec r s) as [|[g rest] tl] eqn:He; [|discriminate].
    intros _ w rest -> [g Hm]. pose proof (exec_complete Hm rest) as Hin.
    now rewrite He in Hin.
  - intros H. destruct (exec r s) as [|[g rest] tl] eqn:He; [reflexivity|].
    destruct (@exec_sound r s g rest) as (w & Hs & Hm); [rewrite He; now left|].
    exfalso. apply (H w rest Hs). now exists g.
Qed.

Lemma re_search_some (r : regex) (s : str) (m : Match) :
  re_search r s = Some m ->
  exists pre post, s = pre ++ group0 m ++ post /\ matches r (group0 m) (groups m).
Proof.
  induction s as [|c s IH]; simpl.
  - destruct (re_match r []) eqn:Hm; [|discriminate]. intros [= ->].
    apply re_match_some in Hm as (rest & Hs & Hm). now exists [], rest.
  - destruct (re_match r (c :: s)) eqn:Hm.
    + intros [= ->]. apply re_match_some in Hm as (rest & Hs & Hm). now exists [], rest.
    + intros H. destruct (IH H) as (pre & post & -> & Hg). now exists (c :: pre), post.
Qed.

Lemma re_search_none (r : regex) (s : str) :
  re_search r s = None <-> forall pre w post, s = pre ++ w ++ post -> ~ lang r w.
Proof.
  induction s as [|c s IH]; simpl.
  - destruct (re_match r []) eqn:Hm.
    + split; [discriminate|]. intros H. exfalso.
      apply re_match_some in Hm as (rest & Hs & Hm).
      apply (H [] (group0 m) rest Hs). now exists (groups m).
    + split; [|reflexivity]. intros _ pre w post Hs.
      symmetry in Hs. apply app_eq_nil in Hs as [-> Hs].
      apply (proj1 (re_match_none r []) Hm w post). now symmetry.
  - destruct (re_match r (c :: s)) eqn:Hm.
    + split; [discriminate|]. intros H. exfalso.
      apply re_match_some in Hm as (rest & Hs & Hm).
      apply (H [] (group0 m) rest Hs). now exists (groups m).
    + rewrite IH. split.
      * intros H pre w post Hs. destruct pre as [|c' pre]; simpl in Hs.
        -- now apply (proj1 (re_match_none r (c :: s)) Hm w post).
        -- injection Hs as _ Hs. now apply (H pre w post).
      * intros H pre w post Hs. apply (H (c :: pre) w post). simpl. now rewrite Hs.
Qed.

Lemma re_search_found_iff (r : regex) (s : str) :
  (exists m, re_search r s = Some m) <->
  exists pre w post, s = pre ++ w ++ post /\ lang r w.
Proof.
  split.
  - intros [m Hm]. apply re_search_some in Hm as (pre & post & Hs & Hg).
    exists pre, (group0 m), post. split; [assumption | now exists (groups m)].
  - intros (pre & w & post & Hs & Hl).
    destruct (re_search r s) as [m|] eqn:Hm; [now exists m|].
    exfalso. exact (proj1 (re_search_none r s) Hm pre w post Hs Hl).
Qed.

(** ** The two patterns *)

Lemma chars_words (l w : str) (g : list str) :
  matches (Chars l) w g <-> w = l /\ g = [].
Proof.
  split.
  - intros H. inversion H; subst. now split.
  - intros [-> ->]. constructor.
Qed.

Lemma more_words (cls : char -> bool) (w : str) (g : list str) :
  matches (OneOrMore cls) w g <->
  g = [] /\ w <> [] /\ Forall (fun c => cls c = true) w.
Proof.
  split.
  - intros H. inversion H; subst. now repeat split.
  - intros (-> & Hw & Hall). now constructor.
Qed.

Lemma maybe_words (r : regex) (w : str) (g : list str) :
  matches (Maybe r) w g <-> (w = [] /\ g = []) \/ matches r w g.
Proof.
  split.
  - intros H. inversion H; subst; [now left | now right].
  - intros [[-> ->] | H]; now constructor.
Qed.

Lemma capture_words (r : regex) (w : str) (g : list str) :
  matches (Capture r) w g <-> exists g', g = w :: g' /\ matches r w g'.
Proof.
  split.
  - intros H. inversion H; subst. eexists. now split.
  - intros (g' & -> & H). now constructor.
Qed.

Lemma seq_words (r1 r2 : regex) (w : str) (g : list str) :
  matches (Seq r1 r2) w g <->
  exists w1 w2 g1 g2,
    w = w1 ++ w2 /\ g = g1 ++ g2 /\ matches r1 w1 g1 /\ matches r2 w2 g2.
Proof.
  split.
  - intros H. inversion H; subst. now do 4 eexists.
  - intros (w1 & w2 & g1 & g2 & -> & -> & H1 & H2). now constructor.
Qed.

(** [https?://] *)
Lemma scheme_words (w : str) (g : list str) :
  matches (Chars (lit "http") +++ Maybe (Chars (lit "s")) +++ Chars (lit "://")) w g <->
  g = [] /\ (w = lit "http://" \/ w = lit "https://").
Proof.
  split.
  - intros H.
    apply seq_words in H as (w1 & t1 & g1 & k1 & -> & -> & H1 & H).
    apply seq_words in H as (w2 & w3 & g2 & g3 & -> & -> & H2 & H3).
    apply chars_words in H1 as [-> ->], H3 as [-> ->].
    apply maybe_words in H2 as [[-> ->] | H2].
    + split; [reflexivity | now left].
    + apply chars_words in H2 as [-> ->]. split; [reflexivity | now right].
  - intros [-> [-> | ->]].
    + apply (@matches_seq _ _ (lit "http") (lit "://") [] []); [constructor|].
      apply (@matches_seq _ _ [] (lit "://") [] []); constructor.
    + apply (@matches_seq _ _ (lit "http") (lit "s://") [] []); [constructor|].
      apply (@matches_seq _ _ (lit "s") (lit "://") [] []); repeat constructor.
Qed.

(** [(?:www\.)?] and [(?:\.git)?] *)
Lemma optional_chars_words (l w : str) (g : list str) :
  matches (Maybe (Chars l)) w g <-> g = [] /\ (w = [] \/ w = l).
Proof.
  rewrite maybe_words, chars_words. split.
  - intros [[-> ->] | [-> ->]]; (split; [reflexivity|]); [now left | now right].
  - intros [-> [-> | ->]]; [left | right]; now split.
Qed.

Lemma all_not_slash (w : str) :
  Forall (fun c => not_slash c = true) w <-> ~ In (chr "/") w.
Proof.
  rewrite Forall_forall. unfold not_slash. split.
  - intros H Hin. specialize (H _ Hin). now rewrite N.eqb_refl in H.
  - intros H c Hin. apply negb_true_iff, N.eqb_neq. intros ->. now apply H.
Qed.

Lemma all_not_slash_dot (w : str) :
  Forall (fun c => not_slash_dot c = true) w <-> ~ In (chr "/") w /\ ~ In (chr ".") w.
Proof.
  rewrite Forall_forall. unfold not_slash_dot. split.
  - intros H. split; intros Hin; specialize (H _ Hin);
      apply andb_true_iff in H as [Ha Hb];
      [rewrite N.eqb_refl in Ha | rewrite N.eqb_refl in Hb]; discriminate.
  - intros [H1 H2] c Hin. apply andb_true_iff.
    split; apply negb_true_iff, N.eqb_neq; intros ->; auto.
Qed.

Lemma all_url_segment_char (w : str) :
  w <> [] /\ Forall (fun c => url_segment_char c = true) w <-> url_segment w.
Proof.
  unfold url_segment, url_segment_char. rewrite Forall_forall. split.
  - intros [Hw H]. split; [assumption|]. split.
    + intros Hin. specialize (H _ Hin). now rewrite N.eqb_refl in H.
    + intros c Hin. specialize (H _ Hin). apply andb_true_iff in H as [_ H].
      now apply negb_true_iff in H.
  - intros (Hw & H1 & H2). split; [assumption|]. intros c Hin.
    apply andb_true_iff. split.
    + apply negb_true_iff, N.eqb_neq. intros ->. now apply H1.
    + apply negb_true_iff. now apply H2.
Qed.

(** The words of the parser's pattern are the strings of the shape 4.1
    describes, and its two groups are the owner and the repository. *)
Lemma repo_pattern_words (w : str) (g : list str) :
  matches repo_pattern w g <->
  exists owner repo scheme www git,
    g = [owner; repo]
    /\ w = scheme ++ www ++ lit "github.com/" ++ owner ++ lit "/" ++ repo ++ git
    /\ (scheme = [] \/ scheme = lit "http://" \/ scheme = lit "https://")
    /\ (www = [] \/ www = lit "www.")
    /\ (owner <> [] /\ ~ In (chr "/") owner)
    /\ (repo <> [] /\ ~ In (chr "/") repo /\ ~ In (chr ".") repo)
    /\ (git = [] \/ git = lit ".git").
Proof.
  unfold repo_pattern. split.
  - intros H.
    apply seq_words in H as (ws & t1 & gs & k1 & -> & -> & Hs & H).
    apply seq_words in H as (ww & t2 & gw & k2 & -> & -> & Hw & H).
    apply seq_words in H as (wh & t3 & gh & k3 & -> & -> & Hh & H).
    apply seq_words in H as (wo & t4 & go & k4 & -> & -> & Ho & H).
    apply seq_words in H as (wl & t5 & gl & k5 & -> & -> & Hl & H).
    apply seq_words in H as (wr & wg & gr & gg & -> & -> & Hr & Hg).
    apply chars_words in Hh as [-> ->], Hl as [-> ->].
    apply optional_chars_words in Hw as [-> Hw], Hg as [-> Hg].
    apply capture_words in Ho as (go' & -> & Ho), Hr as (gr' & -> & Hr).
    apply more_words in Ho as (-> & Ho & Hoa), Hr as (-> & Hr & Hra).
    apply all_not_slash in Hoa. apply all_not_slash_dot in Hra.
    exists wo, wr, ws, ww, wg.
    assert (gs = [] /\ (ws = [] \/ ws = lit "http://" \/ ws = lit "https://")) as [-> Hs'].
    { apply maybe_words in Hs as [[-> ->] | Hs]; [now split; [|left]|].
      apply scheme_words in Hs as [-> Hs]. split; [reflexivity | now right]. }
    destruct Hra as [Hr1 Hr2]. repeat split; assumption || reflexivity.
  - intros (o & r & scheme & www & git & -> & -> & Hs & Hw & [Ho1 Ho2] & Hr & Hg).
    apply (@matches_seq _ _ scheme _ [] [o; r]).
    { apply maybe_words. destruct Hs as [-> | Hs]; [now left | right].
      now apply scheme_words. }
    apply (@matches_seq _ _ www _ [] [o; r]); [now apply optional_chars_words|].
    apply (@matches_seq _ _ (lit "github.com/") _ [] [o; r]); [constructor|].
    apply (@matches_seq _ _ o _ [o] [r]).
    { repeat constructor; [assumption | now apply all_not_slash]. }
    apply (@matches_seq _ _ (lit "/") _ [] [r]); [constructor|].
    apply (@matches_seq _ _ r git [r] []); [|now apply optional_chars_words].
    destruct Hr as (Hr1 & Hr2 & Hr3). repeat constructor; [assumption | now apply all_not_slash_dot].
Qed.

(** The words of the pattern searched for in a query are the URLs of 4.2 (a). *)
Lemma url_pattern_words (u : str) : lang url_pattern u <-> github_url u.
Proof.
  unfold lang, url_pattern, github_url. split.
  - intros [g H].
    apply seq_words in H as (w1 & t1 & g1 & k1 & -> & -> & H1 & H).
    apply seq_words in H as (w2 & t2 & g2 & k2 & -> & -> & H2 & H).
    apply seq_words in H as (w3 & t3 & g3 & k3 & -> & -> & H3 & H).
    apply seq_words in H as (ww & t4 & gw & k4 & -> & -> & Hw & H).
    apply seq_words in H as (wh & t5 & gh & k5 & -> & -> & Hh & H).
    apply seq_words in H as (wo & t6 & go & k6 & -> & -> & Ho & H).
    apply seq_words in H as (wl & wr & gl & gr & -> & -> & Hl & Hr).
    apply chars_words in H1 as [-> ->], H3 as [-> ->], Hh as [-> ->], Hl as [-> ->].
    apply optional_chars_words in H2 as [-> H2], Hw as [-> Hw].
    apply more_words in Ho as (-> & Ho & Hoa), Hr as (-> & Hr & Hra).
    exists (lit "http" ++ w2 ++ lit "://"), ww, wo, wr.
    repeat split; try (apply all_url_segment_char; now split); auto.
    + now rewrite <- !app_assoc.
    + destruct H2 as [-> | ->]; [now left | now right].
  - intros (scheme & www & o & r & -> & Hs & Hw & Ho & Hr).
    apply all_url_segment_char in Ho as [Ho Hoa], Hr as [Hr Hra].
    exists [].
    assert (exists s, (s = [] \/ s = lit "s") /\ scheme = lit "http" ++ s ++ lit "://")
      as (s & Hs' & ->).
    { destruct Hs as [-> | ->]; [exists [] | exists (lit "s")]; auto. }
    rewrite <- !app_assoc.
    apply (@matches_seq _ _ (lit "http") _ [] []); [constructor|].
    apply (@matches_seq _ _ s _ [] []); [now apply optional_chars_words|].
    apply (@matches_seq _ _ (lit "://") _ [] []); [constructor|].
    apply (@matches_seq _ _ www _ [] []); [now apply optional_chars_words|].
    apply (@matches_seq _ _ (lit "github.com/") _ [] []); [constructor|].
    apply (@matches_seq _ _ o _ [] []); [now constructor|].
    apply (@matches_seq _ _ (lit "/") _ [] []); [constructor|].
    now constructor.
Qed.

(** ** The URL parser *)

Lemma matches_repo_pattern_iff (url : str) :
  matches_repo_pattern url <-> exists w rest, url = w ++ rest /\ lang repo_pattern w.
Proof.
  unfold matches_repo_pattern, repo_url_shape, lang. split.
  - intros (o & r & scheme & www & git & rest & -> & H).
    exists (scheme ++ www ++ lit "github.com/" ++ o ++ lit "/" ++ r ++ git), rest.
    split; [now rewrite <- !app_assoc|].
    exists [o; r]. apply repo_pattern_words. exists o, r, scheme, www, git.
    split; [reflexivity|]. now split.
  - intros (w & rest & -> & g & H).
    apply repo_pattern_words in H as (o & r & scheme & www & git & -> & -> & H).
    exists o, r, scheme, www, git, rest. split; [now rewrite <- !app_assoc | assumption].
Qed.

(** *** The first match

    [re.match] keeps the first way of matching; for the parser's
    pattern that is the one whose repository group runs as far as it can. *)

Lemma hd_error_flat_map {A B : Type} (f : A -> list B) (l : list A) (y : B) :
  hd_error (flat_map f l) = Some y -> exists x, In x l /\ hd_error (f x) = Some y.
Proof.
  induction l as [|a l IH]; simpl; [discriminate|].
  destruct (f a) as [|b bs] eqn:Hfa; simpl.
  - intros H. destruct (IH H) as (x & Hin & Hx). exists x. split; [now right | assumption].
  - intros [= <-]. exists a. split; [now left | now rewrite Hfa].
Qed.

Lemma hd_error_map {A B : Type} (f : A -> B) (l : list A) :
  hd_error (map f l) = option_map f (hd_error l).
Proof. now destruct l. Qed.

Lemma exec_seq_first (r1 r2 : regex) (s : str) (g : list str) (rest : str) :
  hd_error (exec (r1 +++ r2) s) = Some (g, rest) ->
  exists g1 s1 g2,
    In (g1, s1) (exec r1 s) /\ hd_error (exec r2 s1) = Some (g2, rest) /\ g = g1 ++ g2.
Proof.
  simpl. intros H. apply hd_error_flat_map in H as ([g1 s1] & Hin & H).
  rewrite hd_error_map in H.
  destruct (hd_error (exec r2 s1)) as [[g2 s2]|] eqn:Hh; [|discriminate].
  simpl in H. injection H as <- <-. now exists g1, s1, g2.
Qed.

Lemma one_or_more_first (cls : char -> bool) (s rest : str) :
  hd_error (one_or_more cls s) = Some rest ->
  exists w, s = w ++ rest /\ w <> [] /\ Forall (fun c => cls c = true) w /\ run_ends cls rest.
Proof.
  revert rest. induction s as [|c s IH]; intros rest; simpl; [discriminate|].
  destruct (cls c) eqn:Hc; [|discriminate].
  destruct (one_or_more cls s) as [|r rs] eqn:Hs; simpl.
  - intros [= <-]. exists [c]. repeat split; [discriminate | now repeat constructor |].
    destruct s as [|c' s']; [now left | right]. exists c', s'. split; [reflexivity|].
    simpl in Hs. destruct (cls c'); [|reflexivity]. now destruct (one_or_more cls s').
  - intros [= <-]. destruct (IH r eq_refl) as (w & -> & Hw & Hall & Hend).
    exists (c :: w). repeat split; [discriminate | now constructor | assumption].
Qed.

Lemma exec_eqns :
  (forall l s, exec (Chars l) s = if starts_with l s then [([], skipn (length l) s)] else [])
  /\ (forall cls s, exec (OneOrMore cls) s = map (fun rest => ([], rest)) (one_or_more cls s))
  /\ (forall r s, exec (Maybe r) s = exec r s ++ [([], s)])
  /\ (forall r s,
        exec (Capture r) s = map (fun '(g, rest) => (consumed s rest :: g, rest)) (exec r s))
  /\ (forall r1 r2 s,
        exec (r1 +++ r2) s
        = flat_map (fun '(g1, s1) => map (fun '(g2, s2) => (g1 ++ g2, s2)) (exec r2 s1))
                   (exec r1 s)).
Proof. repeat split. Qed.

(** The last two pieces of the parser's pattern: the repository group is
    the longest run there is. *)
Lemma repo_group_first (s : str) (g : list str) (rest : str) :
  hd_error (exec (Capture (OneOrMore not_slash_dot) +++ Maybe (Chars (lit ".git"))) s)
  = Some (g, rest) ->
  exists r tail,
    g = [r] /\ s = r ++ tail /\ r <> []
    /\ Forall (fun c => not_slash_dot c = true) r /\ run_ends not_slash_dot tail.
Proof.
  destruct exec_eqns as (Hchars & Hmore & Hmaybe & Hcapture & Hseq).
  rewrite Hseq, Hcapture, Hmore.
  destruct (one_or_more not_slash_dot s) as [|tail tails] eqn:Hs; [discriminate|].
  destruct (one_or_more_first not_slash_dot s) with (rest := tail)
    as (r & -> & Hr & Hall & Hend); [now rewrite Hs|].
  cbn [map flat_map]. rewrite consumed_app, Hmaybe, Hchars.
  destruct (starts_with (lit ".git") tail); cbn [map app hd_error];
    intros [= <- <-]; now exists r, tail.
Qed.

Lemma split_at_slash (a b x y : str) :
  ~ In (chr "/") a -> ~ In (chr "/") b ->
  a ++ lit "/" ++ x = b ++ lit "/" ++ y -> a = b /\ x = y.
Proof.
  revert b. induction a as [|c a IH]; intros [|d b] Ha Hb H; simpl in H.
  - injection H as ->. now split.
  - injection H as <- _. exfalso. apply Hb. now left.
  - injection H as -> _. exfalso. apply Ha. now left.
  - injection H as -> H. destruct (IH b) as [-> ->]; auto.
    + intros Hin. apply Ha. now right.
    + intros Hin. apply Hb. now right.
Qed.

Lemma split_at_run_end (cls : char -> bool) (a b x y : str) :
  Forall (fun c => cls c = true) a -> Forall (fun c => cls c = true) b ->
  run_ends cls x -> run_ends cls y ->
  a ++ x = b ++ y -> a = b /\ x = y.
Proof.
  intros Ha. revert b. induction Ha as [|c a Hc Ha IH]; intros b Hb Hx Hy H.
  - destruct Hb as [|d b Hd Hb]; [now split|]. simpl in H. exfalso.
    destruct Hx as [-> | (c & t & -> & Hc)]; [discriminate|].
    injection H as -> _. congruence.
  - destruct Hb as [|d b Hd Hb]; simpl in H.
    + exfalso. destruct Hy as [-> | (e & t & -> & He)]; [discriminate|].
      injection H as -> _. congruence.
    + injection H as -> H. destruct (IH b Hb Hx Hy H) as [-> ->]. now split.
Qed.

Lemma prefix_unique (scheme www scheme' www' x x' : str) :
  (scheme = [] \/ scheme = lit "http://" \/ scheme = lit "https://") ->
  (www = [] \/ www = lit "www.") ->
  (scheme' = [] \/ scheme' = lit "http://" \/ scheme' = lit "https://") ->
  (www' = [] \/ www' = lit "www.") ->
  scheme ++ www ++ lit "github.com/" ++ x = scheme' ++ www' ++ lit "github.com/" ++ x' ->
  x = x'.
Proof.
  intros [-> | [-> | ->]] [-> | ->] [-> | [-> | ->]] [-> | ->] H;
    vm_compute in H; repeat (first [discriminate H | injection H as H]); exact H.
Qed.

Lemma exec_first (r : regex) (s : str) (m : Match) :
  re_match r s = Some m ->
  exists rest, hd_error (exec r s) = Some (groups m, rest).
Proof.
  unfold re_match. destruct (exec r s) as [|[g rest] tl]; [discriminate|].
  intros [= <-]. now exists rest.
Qed.

Lemma parse_github_url_longest (url : str) (ref : RepoRef) :
  parse_github_url url = Some ref ->
  exists scheme www tail,
    url = scheme ++ www ++ lit "github.com/" ++ owner ref ++ lit "/" ++ repo ref ++ tail
    /\ (scheme = [] \/ scheme = lit "http://" \/ scheme = lit "https://")
    /\ (www = [] \/ www = lit "www.")
    /\ (owner ref <> [] /\ ~ In (chr "/") (owner ref))
    /\ (repo ref <> [] /\ ~ In (chr "/") (repo ref) /\ ~ In (chr ".") (repo ref))
    /\ run_ends not_slash_dot tail.
Proof.
  unfold parse_github_url.
  destruct (re_match repo_pattern url) as [m|] eqn:Hm; [|discriminate].
  intros [= <-]. cbn [owner repo].
  apply exec_first in Hm as [rest H]. unfold repo_pattern in H.
  apply exec_seq_first in H as (gs & s1 & k1 & Hs & H & Hg1).
  apply exec_seq_first in H as (gw & s2 & k2 & Hw & H & Hg2).
  apply exec_seq_first in H as (gh & s3 & k3 & Hh & H & Hg3).
  apply exec_seq_first in H as (go & s4 & k4 & Ho & H & Hg4).
  apply exec_seq_first in H as (gl & s5 & k5 & Hl & H & Hg5).
  apply repo_group_first in H as (r & tail & -> & -> & Hr & Hra & Hend).
  apply exec_sound in Hs as (ws & -> & Hs), Hw as (ww & -> & Hw), Hh as (wh & -> & Hh),
      Ho as (wo & -> & Ho), Hl as (wl & -> & Hl).
  apply chars_words in Hh as [-> ->], Hl as [-> ->].
  apply optional_chars_words in Hw as [-> Hw].
  apply capture_words in Ho as (go' & -> & Ho).
  apply more_words in Ho as (-> & Ho & Hoa).
  apply all_not_slash in Hoa. apply all_not_slash_dot in Hra.
  assert (gs = [] /\ (ws = [] \/ ws = lit "http://" \/ ws = lit "https://")) as [-> Hs'].
  { apply maybe_words in Hs as [[-> ->] | Hs]; [now split; [|left]|].
    apply scheme_words in Hs as [-> Hs]. split; [reflexivity | now right]. }
  subst. rewrite Hg1. cbn [app nth].
  destruct Hra as [Hr1 Hr2]. exists ws, ww, tail. repeat split; assumption || reflexivity.
Qed.

Lemma parse_github_url_exact (scheme www o r tail : str) :
  (scheme = [] \/ scheme = lit "http://" \/ scheme = lit "https://") ->
  (www = [] \/ www = lit "www.") ->
  (o <> [] /\ ~ In (chr "/") o) ->
  (r <> [] /\ ~ In (chr "/") r /\ ~ In (chr ".") r) ->
  run_ends not_slash_dot tail ->
  parse_github_url (scheme ++ www ++ lit "github.com/" ++ o ++ lit "/" ++ r ++ tail)
  = Some {| owner := o; repo := r |}.
Proof.
  intros Hs Hw Ho Hr Hend.
  destruct (parse_github_url _) as [[o' r']|] eqn:Hparse.
  - apply parse_github_url_longest in Hparse
      as (scheme' & www' & tail' & Hurl & Hs' & Hw' & Ho' & Hr' & Hend').
    cbn [owner repo] in Hurl, Ho', Hr'.
    apply (@prefix_unique _ _ _ _ _ _ Hs Hw Hs' Hw') in Hurl.
    apply split_at_slash in Hurl as [<- Hurl]; [|apply Ho | apply Ho'].
    apply (@split_at_run_end not_slash_dot) in Hurl as [<- _];
      [reflexivity | apply all_not_slash_dot; split; apply Hr
       | apply all_not_slash_dot; split; apply Hr' | assumption | assumption].
  - exfalso. unfold parse_github_url in Hparse.
    destruct (re_match repo_pattern _) as [m|] eqn:Hm; [discriminate|].
    apply (proj1 (re_match_none _ _) Hm
             (scheme ++ www ++ lit "github.com/" ++ o ++ lit "/" ++ r) tail).
    + now rewrite <- !app_assoc.
    + exists [o; r]. apply repo_pattern_words. exists o, r, scheme, www, [].
      rewrite app_nil_r. split; [reflexivity|]. split; [reflexivity|].
      split; [assumption|]. split; [assumption|]. split; [assumption|].
      split; [assumption | now left].
Qed.

Lemma parse_github_url_none (url : str) :
  parse_github_url url = None <-> ~ matches_repo_pattern url.
Proof.
  rewrite matches_repo_pattern_iff. unfold parse_github_url.
  destruct (re_match repo_pattern url) as [m|] eqn:Hm.
  - split; [discriminate|]. intros H. exfalso. apply H.
    apply re_match_some in Hm as (rest & Hs & Hg).
    exists (group0 m), rest. split; [assumption | now exists (groups m)].
  - split; [|reflexivity]. intros _ (w & rest & Hs & Hl).
    exact (proj1 (re_match_none repo_pattern url) Hm w rest Hs Hl).
Qed.

(** C4. [parse_github_url] returns on every string: [None] exactly on
    the strings that do not start with
    [[scheme://][www.]github.com/<owner>/<repo>[.git]], and otherwise an
    owner and a repository that decompose the string in that shape.  On a
    string of that shape where the repository name runs up to the end or
    up to a [/] or a [.], it returns that owner and that name: acme and
    widget on [https://github.com/acme/widget], and the same with
    [.git] after it. *)
Theorem parse_github_url_no_match :
  (forall url, parse_github_url url = None <-> ~ matches_repo_pattern url)
  /\ (forall url ref,
        parse_github_url url = Some ref -> repo_url_shape url (owner ref) (repo ref))
  /\ (forall scheme www o r tail,
        (scheme = [] \/ scheme = lit "http://" \/ scheme = lit "https://") ->
        (www = [] \/ www = lit "www.") ->
        (o <> [] /\ ~ In (chr "/") o) ->
        (r <> [] /\ ~ In (chr "/") r /\ ~ In (chr ".") r) ->
        tail = [] \/ tail = lit ".git" ->
        parse_github_url (scheme ++ www ++ lit "github.com/" ++ o ++ lit "/" ++ r ++ tail)
        = Some {| owner := o; repo := r |})
  /\ parse_github_url (lit "https://github.com/acme/widget")
     = Some {| owner := lit "acme"; repo := lit "widget" |}
  /\ parse_github_url (lit "https://github.com/acme/widget.git")
     = Some {| owner := lit "acme"; repo := lit "widget" |}.
Proof.
  split; [exact parse_github_url_none|].
  split; [|split; [|split; vm_compute; reflexivity]].
  - intros url ref H.
    apply parse_github_url_longest in H as (scheme & www & tail & -> & H).
    exists scheme, www, [], tail. split; [reflexivity|].
    destruct H as (Hs & Hw & Ho & Hr & _). repeat split; try assumption; try apply Ho;
      try apply Hr. now left.
  - intros scheme www o r tail Hs Hw Ho Hr Htail.
    apply parse_github_url_exact; try assumption.
    destruct Htail as [-> | ->]; [now left | right].
    eexists _, _. split; [reflexivity | reflexivity].
Qed.

(** ** Intent *)

Lemma github_request_iff (q : str) : github_request q = true <-> listing_keywords q.
Proof.
  unfold github_request, listing_keywords.
  now rewrite andb_true_iff, orb_true_iff, !contains_iff.
Qed.

Lemma classify_listing (q : str) :
  classify q = Listing <->
  github_request q = true /\ exists m, re_search url_pattern q = Some m.
Proof.
  unfold classify. destruct (github_request q); [|split; [discriminate | intros [? _]; discriminate]].
  destruct (re_search url_pattern q) as [m|].
  - split; [intros _; split; [reflexivity | now exists m] | reflexivity].
  - split; [discriminate | intros [_ [m Hm]]; discriminate].
Qed.

Lemma classify_generic (q : str) :
  classify q = Generic <->
  github_request q = false \/ re_search url_pattern q = None.
Proof.
  unfold classify. destruct (github_request q); [|split; [now left | reflexivity]].
  destruct (re_search url_pattern q) as [m|].
  - split; [discriminate | intros [? | ?]; discriminate].
  - split; [now right | reflexivity].
Qed.

(** ** get_context, path by path *)

(** The test of line 113 is the client's [github_request] (lines 87-88). *)
Ltac name_keyword_test request :=
  change (contains (lit "github") (lower (query_text request))
          && (contains (lit "list") (lower (query_text request))
              || contains (lit "files") (lower (query_text request))))
    with (github_request (query_text request)).

Lemma get_context_model (up : Upstream) (request : ContextRequest) :
  classify (query_text request) = Generic ->
  exists indent,
    (indent = 8 \/ indent = 12)
    /\ get_context up request
       = Ok (context_response
               [element (query_llama up (llama_prompt indent (query_text request)))
                        (lit "llama_model") 0.9%float]
               (query_text request)).
Proof.
  intros H. apply classify_generic in H. unfold get_context.
  name_keyword_test request.
  destruct (github_request (query_text request)).
  - destruct H as [H | H]; [discriminate|]. rewrite H. exists 12. now split; [right|].
  - exists 8. now split; [left|].
Qed.

(** The listing path: keywords present, a URL found, the URL parsed. *)
Lemma get_context_listing_path (up : Upstream) (request : ContextRequest)
      (m : Match) (ref : RepoRef) :
  github_request (query_text request) = true ->
  re_search url_pattern (query_text request) = Some m ->
  parse_github_url (group0 m) = Some ref ->
  get_context up request =
  (let files_data := list_github_repo_files up (owner ref) (repo ref) [] in
   elements <-
     (has_error <- key_in (lit "error") files_data ;;
      if negb has_error then
        items <- iterate files_data ;;
        lists <- context_listing items [] [] ;;
        Ok [element (PStr (listing_content ref (snd lists ++ fst lists)))
                    (lit "github_api") 0.95%float]
      else
        error_msg <- get files_data (lit "error")
          (PStr (lit "Unknown error when accessing GitHub repository")) ;;
        Ok [element (PStr (lit "Error accessing GitHub repository: " ++ format error_msg))
                    (lit "github_api_error") 0.9%float]) ;;
   Ok (context_response elements (query_text request)))%py.
Proof.
  intros Hk Hs Hp. unfold get_context.
  name_keyword_test request.
  rewrite Hk, Hs, Hp. cbv zeta. unfold bind.
  destruct (key_in (lit "error") (list_github_repo_files up (owner ref) (repo ref) []))
    as [[|]|e]; simpl negb; cbv iota; try reflexivity.
  destruct (iterate (list_github_repo_files up (owner ref) (repo ref) [])) as [items|e];
    [|reflexivity].
  destruct (context_listing items [] []) as [[fl dl]|e]; reflexivity.
Qed.

Lemma lookup_error_dict (reason : pyval) :
  key_in (lit "error") (error_dict reason) = Ok true
  /\ forall default, get (error_dict reason) (lit "error") default = Ok reason.
Proof. split; reflexivity. Qed.



Lemma occurs_app_r (p a b : str) : occurs p b -> occurs p (a ++ b).
Proof.
  intros (pre & post & ->). exists (a ++ pre), post. now rewrite <- app_assoc.
Qed.


(** ** The two listing loops *)

Lemma listed_entry_is_dict (item : pyval) :
  listed_entry item -> exists entries, item = PDict entries.
Proof.
  intros (n & p & ty & Hn & _). destruct item; try discriminate. now eexists.
Qed.

Lemma key_in_listing (key : str) (items : list pyval) :
  Forall listed_entry items -> key_in key (PList items) = Ok false.
Proof.
  intros H. simpl. f_equal. induction H as [|item items Hi _ IH]; [reflexivity|].
  simpl. rewrite IH. apply listed_entry_is_dict in Hi as [entries ->]. reflexivity.
Qed.

Lemma context_listing_entries (items : list pyval) :
  Forall listed_entry items ->
  forall file_list directory_list,
    context_listing items file_list directory_list
    = Ok (file_list ++ map file_line (filter is_file items),
          directory_list ++ map folder_line (filter (fun i => negb (is_file i)) items)).
Proof.
  induction 1 as [|item items (n & p & ty & Hn & Hp & Hty) _ IH]; intros fl dl.
  - simpl. now rewrite !app_nil_r.
  - assert (is_file item = is_str (lit "file") ty) as Hfile
      by (unfold is_file, field; now rewrite Hty).
    assert (file_line item = file_marker ++ format n) as Hfl
      by (unfold file_line, field; now rewrite Hn).
    assert (folder_line item = folder_marker ++ format n) as Hdl
      by (unfold folder_line, field; now rewrite Hn).
    cbn [context_listing filter]. rewrite Hty, Hfile. cbn [bind].
    destruct (is_str (lit "file") ty); rewrite Hn; cbn [bind negb map];
      rewrite IH, <- !app_assoc, ?Hfl, ?Hdl; reflexivity.
Qed.

Lemma dedicated_listing_entries (items : list pyval) :
  Forall listed_entry items ->
  forall file_list,
    dedicated_listing items file_list = Ok (file_list ++ map dedicated_line items).
Proof.
  induction 1 as [|item items (n & p & ty & Hn & Hp & Hty) _ IH]; intros fl.
  - simpl. now rewrite app_nil_r.
  - cbn [dedicated_listing map]. rewrite Hty. cbn [bind]. rewrite Hp. cbn [bind].
    rewrite IH, <- app_assoc.
    unfold dedicated_line, is_dir, field. now rewrite Hty, Hp.
Qed.

(** What [list_github_repo_files] hands back: an error dictionary, or
    the body of a 200 answer as it came. *)
Lemma list_github_repo_files_cases (up : Upstream) (o r path : str) :
  (exists reason, list_github_repo_files up o r path = error_dict reason)
  \/ (exists v, github_get up (contents_url o r path) = Response 200 (JsonValue v)
                /\ list_github_repo_files up o r path = v).
Proof.
  unfold list_github_repo_files.
  destruct (github_get up (contents_url o r path)) as [e | status body];
    [left; now eexists|].
  destruct (Z.eqb_spec status 200) as [-> | Hne].
  - destruct body as [v | e]; [right; now exists v | left; now eexists].
  - left. destruct body as [[| b | z | f | s | items | entries] | e]; now eexists.
Qed.

(** C7. When the contents call answers with a list of entries, the
    content [get_context] builds names the repository and then lists
    every entry that is not a file, with the folder marker, before
    every file, with the file marker, each group in upstream order. *)
Theorem directories_before_files (up : Upstream) (request : ContextRequest)
        (m : Match) (ref : RepoRef) (items : list pyval) :
  github_request (query_text request) = true ->
  re_search url_pattern (query_text request) = Some m ->
  parse_github_url (group0 m) = Some ref ->
  lists_entries (github_get up (contents_url (owner ref) (repo ref) [])) items ->
  get_context up request
  = Ok (context_response
          [element
             (PStr (lit "Repository: " ++ owner ref ++ lit "/" ++ repo ref
                    ++ [newline; newline] ++ lit "Files and directories:" ++ [newline]
                    ++ join [newline]
                         (map folder_line (filter (fun i => negb (is_file i)) items)
                          ++ map file_line (filter is_file items))))
             (lit "github_api") 0.95%float]
          (query_text request)).
Proof.
  intros Hk Hs Hp [Hget Hitems].
  rewrite (get_context_listing_path up request Hk Hs Hp). cbv zeta.
  assert (list_github_repo_files up (owner ref) (repo ref) [] = PList items) as ->.
  { unfold list_github_repo_files. now rewrite Hget. }
  rewrite (key_in_listing _ Hitems). unfold bind. simpl negb. cbv iota.
  simpl iterate. cbv iota. rewrite (context_listing_entries Hitems). cbn [fst snd app].
  unfold listing_content. now rewrite <- !app_assoc.
Qed.

(** ** The response contract *)

Lemma get_context_invalid_url (up : Upstream) (request : ContextRequest) (m : Match) :
  github_request (query_text request) = true ->
  re_search url_pattern (query_text request) = Some m ->
  parse_github_url (group0 m) = None ->
  get_context up request
  = Ok (context_response
          [element
             (PStr (lit "The GitHub URL provided is not valid. Please provide a URL in the format: https://github.com/owner/repo"))
             (lit "github_url_parser") 0.9%float]
          (query_text request)).
Proof.
  intros Hk Hs Hp. unfold get_context.
  name_keyword_test request.
  now rewrite Hk, Hs, Hp.
Qed.

Lemma get_context_shape (up : Upstream) (request : ContextRequest) (resp : ContextResponse) :
  get_context up request = Ok resp ->
  exists e, resp = context_response [e] (query_text request).
Proof.
  destruct (classify (query_text request)) eqn:Hc.
  - apply classify_listing in Hc as [Hk [m Hs]].
    destruct (parse_github_url (group0 m)) as [ref|] eqn:Hp.
    + rewrite (get_context_listing_path up request Hk Hs Hp). cbv zeta. unfold bind.
      destruct (key_in _ _) as [[|]|]; simpl negb; cbv iota.
      * destruct (get _ _ _); intros [= <-]; now eexists.
      * destruct (iterate _); [|discriminate].
        destruct (context_listing _ _ _); intros [= <-]; now eexists.
      * discriminate.
    + rewrite (get_context_invalid_url up request Hk Hs Hp). intros [= <-]. now eexists.
  - destruct (get_context_model up request Hc) as (indent & _ & ->).
    intros [= <-]. now eexists.
Qed.

(** [get_context] returns a response whenever the GitHub backend keeps
    to its schema; the model backend may answer anything. *)
Lemma get_context_returns (up : Upstream) (request : ContextRequest) :
  answers_with_listings up -> exists resp, get_context up request = Ok resp.
Proof.
  intros Hup. destruct (classify (query_text request)) eqn:Hc.
  - apply classify_listing in Hc as [Hk [m Hs]].
    destruct (parse_github_url (group0 m)) as [ref|] eqn:Hp.
    + rewrite (get_context_listing_path up request Hk Hs Hp). cbv zeta.
      destruct (list_github_repo_files_cases up (owner ref) (repo ref) [])
        as [[reason ->] | (v & Hget & ->)].
      * destruct (lookup_error_dict reason) as [-> Hg]. unfold bind. simpl negb. cbv iota.
        rewrite Hg. now eexists.
      * destruct (Hup _ _ Hget) as (items & -> & Hitems).
        rewrite (key_in_listing _ Hitems). unfold bind. simpl negb. cbv iota.
        simpl iterate. cbv iota. rewrite (context_listing_entries Hitems). now eexists.
    + rewrite (get_context_invalid_url up request Hk Hs Hp). now eexists.
  - destruct (get_context_model up request Hc) as (indent & _ & ->). now eexists.
Qed.

(** C9. Every response [get_context] returns holds exactly one context
    element, and its metadata maps [query] to the query text as received
    and [processing_time_ms] to a processing time. *)
Theorem one_element_and_metadata (up : Upstream) (request : ContextRequest)
        (resp : ContextResponse) :
  get_context up request = Ok resp ->
  length (context_elements resp) = 1
  /\ exists md,
       metadata resp = Some md
       /\ lookup (lit "query") md = Some (PStr (query_text request))
       /\ lookup (lit "processing_time_ms") md = Some (PInt 150).
Proof.
  intros H. apply get_context_shape in H as [e ->]. split; [reflexivity|].
  eexists. split; [reflexivity|]. split; reflexivity.
Qed.

(** C3, as the program has it. For a query of generic intent (no
    listing keywords, or keywords without a URL) the response's single
    element has source [llama_model] and relevance score 0.9. *)
Theorem generic_answer_source (up : Upstream) (request : ContextRequest) :
  classify (query_text request) = Generic ->
  exists resp e,
    get_context up request = Ok resp
    /\ context_elements resp = [e]
    /\ lookup (lit "source") e = Some (PStr (lit "llama_model"))
    /\ lookup (lit "relevance_score") e = Some (PFloat 0.9%float).
Proof.
  intros Hc. destruct (get_context_model up request Hc) as (indent & _ & ->).
  do 2 eexists. split; [reflexivity|]. split; [reflexivity|]. split; reflexivity.
Qed.

Lemma first_content_element (content : pyval) (source : str) (score : float) :
  first_content [element content source score] = Ok content.
Proof. reflexivity. Qed.

(** C8. For a query of generic intent, [elements[0].content] of the
    response is the value [query_llama] returned for the prompt built
    around the query, as it is; and when the model backend answers 200
    with a [response] field, that value is the field, untouched. *)
Theorem model_answer_unmodified (up : Upstream) (request : ContextRequest) :
  classify (query_text request) = Generic ->
  exists indent resp,
    let prompt := llama_prompt indent (query_text request) in
    get_context up request = Ok resp
    /\ first_content (context_elements resp) = Ok (query_llama up prompt)
    /\ forall entries answer,
         llama_post up prompt = Response 200 (JsonValue (PDict entries)) ->
         lookup (lit "response") entries = Some answer ->
         first_content (context_elements resp) = Ok answer.
Proof.
  intros Hc. destruct (get_context_model up request Hc) as (indent & _ & ->).
  exists indent. eexists. cbv zeta. split; [reflexivity|]. split; [reflexivity|].
  intros entries answer Hpost Hans. cbn [context_elements context_response].
  rewrite first_content_element. unfold query_llama. now rewrite Hpost, Hans.
Qed.

(** ** generate_response, path by path *)

(** The dedicated call reported failure: the generic call follows, and
    the answer is read from the two results. *)
Lemma generate_response_fallback (client : ModelContextClient.t) (q : str)
      (m : Match) (s : pyval) :
  github_request q = true ->
  re_search url_pattern q = Some m ->
  get (ModelContextClient.list_github_files client (group0 m)) (lit "success") (PBool false)
  = Ok s ->
  truthy s = false ->
  generate_response client q =
  (let result := ModelContextClient.list_github_files client (group0 m) in
   let context_data := ModelContextClient.get_context client q in
   ([ListGithubFiles (group0 m); GetContext q],
    (has_error <- key_in (lit "error") context_data ;;
     if has_error : bool then
       message <- get result (lit "message") (PStr (lit "Unknown error")) ;;
       Ok (PStr (lit "Sorry, I couldn't list the GitHub repository files: "
                 ++ format message))
     else
       context_elements <- get context_data (lit "context_elements") (PList []) ;;
       if truthy context_elements then
         first <- first_item context_elements ;;
         subscript first (lit "content")
       else
         Ok (PStr (lit "I couldn't retrieve any information about the GitHub repository.")))%py)).
Proof.
  intros Hk Hs Hget Hfalse. unfold generate_response. rewrite Hk, Hs. cbv zeta.
  unfold tbind at 1. unfold call_list_github_files.
  unfold tbind at 1. unfold lift at 1. rewrite Hget, Hfalse.
  unfold tbind, call_get_context, lift, ret, bind.
  destruct (key_in (lit "error") (ModelContextClient.get_context client q)) as [[|]|e];
    try reflexivity.
  - destruct (get (ModelContextClient.list_github_files client (group0 m))
                  (lit "message") (PStr (lit "Unknown error"))); reflexivity.
  - destruct (get (ModelContextClient.get_context client q)
                  (lit "context_elements") (PList [])) as [elements|e]; [|reflexivity].
    destruct (truthy elements); [|reflexivity].
    destruct (first_item elements) as [first|e]; [|reflexivity].
    destruct (subscript first (lit "content")); reflexivity.
Qed.

(** The dedicated call succeeded with nothing to show. *)
Lemma generate_response_empty (client : ModelContextClient.t) (q : str)
      (m : Match) (s files : pyval) :
  github_request q = true ->
  re_search url_pattern q = Some m ->
  get (ModelContextClient.list_github_files client (group0 m)) (lit "success") (PBool false)
  = Ok s ->
  truthy s = true ->
  get (ModelContextClient.list_github_files client (group0 m)) (lit "files") (PList [])
  = Ok files ->
  truthy files = false ->
  exists owner repository,
    get (ModelContextClient.list_github_files client (group0 m)) (lit "owner") PNone
    = Ok owner
    /\ get (ModelContextClient.list_github_files client (group0 m)) (lit "repository") PNone
       = Ok repository
    /\ generate_response client q
       = ([ListGithubFiles (group0 m)],
          Ok (PStr (lit "The repository " ++ format owner ++ lit "/" ++ format repository
                    ++ lit " appears to be empty."))).
Proof.
  intros Hk Hs Hget Htrue Hfiles Hempty. unfold generate_response. rewrite Hk, Hs. cbv zeta.
  unfold tbind at 1. unfold call_list_github_files.
  unfold tbind at 1. unfold lift at 1. rewrite Hget, Htrue.
  unfold tbind at 1. unfold lift at 1. rewrite Hfiles, Hempty.
  destruct (ModelContextClient.list_github_files client (group0 m)) as
    [| b | z | f | t | items | entries]; try discriminate.
  unfold get. destruct (lookup (lit "owner") entries), (lookup (lit "repository") entries);
    do 2 eexists; (split; [reflexivity|]); (split; [reflexivity|]); reflexivity.
Qed.

(** Generic intent: one call, to the context endpoint. *)
Lemma generate_response_generic (client : ModelContextClient.t) (q : str) :
  classify q = Generic ->
  generate_response client q =
  (let context_data := ModelContextClient.get_context client q in
   ([GetContext q],
    (has_error <- key_in (lit "error") context_data ;;
     if has_error : bool then
       reason <- subscript context_data (lit "error") ;;
       Ok (PStr (lit "Sorry, I couldn't generate a proper response due to: "
                 ++ format reason))
     else
       context_elements <- get context_data (lit "context_elements") (PList []) ;;
       if negb (truthy context_elements) then
         Ok (PStr (lit "I don't have enough information to answer that question."))
       else
         first <- first_item context_elements ;;
         subscript first (lit "content"))%py)).
Proof.
  intros Hc. apply classify_generic in Hc. unfold generate_response.
  destruct (github_request q), (re_search url_pattern q) as [m|];
    try (destruct Hc; discriminate).
  all: cbv zeta; unfold tbind, call_get_context, lift, ret, bind;
    destruct (key_in (lit "error") (ModelContextClient.get_context client q)) as [[|]|e];
    try reflexivity;
    [ destruct (subscript (ModelContextClient.get_context client q) (lit "error"));
      reflexivity
    | destruct (get (ModelContextClient.get_context client q)
                    (lit "context_elements") (PList [])) as [elements|e]; [|reflexivity];
      destruct (truthy elements); [|reflexivity];
      cbn [negb];
      destruct (first_item elements) as [first|e]; [|reflexivity];
      destruct (subscript first (lit "content")); reflexivity ].
Qed.

(** Listing intent: the first call goes to the dedicated endpoint, with the URL found. *)
Lemma generate_response_listing (client : ModelContextClient.t) (q : str) :
  classify q = Listing ->
  exists m rest,
    re_search url_pattern q = Some m
    /\ fst (generate_response client q) = ListGithubFiles (group0 m) :: rest.
Proof.
  intros Hc. apply classify_listing in Hc as [Hk [m Hs]].
  exists m. unfold generate_response. rewrite Hk, Hs. cbv zeta.
  unfold tbind at 1. unfold call_list_github_files.
  match goal with
  | |- context [let (more, r) := ?k in _] => destruct k as [more r]
  end.
  now exists more.
Qed.

Lemma get_context_listing_source (up : Upstream) (request : ContextRequest)
      (resp : ContextResponse) :
  classify (query_text request) = Listing ->
  get_context up request = Ok resp ->
  exists content source score,
    context_elements resp = [element content source score]
    /\ (source = lit "github_api" \/ source = lit "github_api_error"
        \/ source = lit "github_url_parser").
Proof.
  intros Hc. apply classify_listing in Hc as [Hk [m Hs]].
  destruct (parse_github_url (group0 m)) as [ref|] eqn:Hp.
  - rewrite (get_context_listing_path up request Hk Hs Hp). cbv zeta. unfold bind.
    destruct (key_in _ _) as [[|]|]; simpl negb; cbv iota.
    + destruct (get _ _ _); intros [= <-]; do 3 eexists;
        split; [reflexivity | right; now left].
    + destruct (iterate _); [|discriminate].
      destruct (context_listing _ _ _); intros [= <-]; do 3 eexists;
        split; [reflexivity | now left].
    + discriminate.
  - rewrite (get_context_invalid_url up request Hk Hs Hp). intros [= <-].
    do 3 eexists; split; [reflexivity | right; now right].
Qed.

Lemma source_of_element (content : pyval) (source : str) (score : float) :
  lookup (lit "source") (element content source score) = Some (PStr source).
Proof. reflexivity. Qed.

(** A host written in capitals is not found, whatever the interpreter's
    case tables are: the query is ASCII and the search reads it as typed. *)
Example mixed_case_query_any_interpreter : classify mixed_case_query = Generic.
Proof. vm_compute. reflexivity. Qed.

(** C1, as the program has it. A query is of listing intent exactly
    when it contains a GitHub repository URL, matched letter for letter
    ([http://] or [https://], an optional [www.], [github.com/] and two
    path segments), and its lowercased text contains "github" and one of
    "list" and "files".  The server answers from the model exactly on the
    other queries, and the client's first call goes to the dedicated
    endpoint exactly on these. *)
Theorem listing_intent_iff :
  (forall q,
      classify q = Listing <->
      (exists pre u post, q = pre ++ u ++ post /\ github_url u) /\ listing_keywords q)
  /\ classify (lit "list files from https://github.com/acme/widget") = Listing
  /\ classify (lit "tell me about https://github.com/acme/widget") = Generic
  /\ (forall up request resp,
        get_context up request = Ok resp ->
        (classify (query_text request) = Generic <->
         exists e, context_elements resp = [e]
                   /\ lookup (lit "source") e = Some (PStr (lit "llama_model"))))
  /\ (forall client q,
        classify q = Listing <->
        exists url rest, fst (generate_response client q) = ListGithubFiles url :: rest).
Proof.
  split; [|split; [|split; [|split]]].
  - intros q. rewrite classify_listing, github_request_iff, re_search_found_iff. split.
    + intros [Hk (pre & u & post & Hq & Hu)]. split; [|assumption].
      exists pre, u, post. split; [assumption | now apply url_pattern_words].
    + intros [(pre & u & post & Hq & Hu) Hk]. split; [assumption|].
      exists pre, u, post. split; [assumption | now apply url_pattern_words].
  - vm_compute. reflexivity.
  - vm_compute. reflexivity.
  - intros up request resp Hresp. split.
    + intros Hc. destruct (get_context_model up request Hc) as (indent & _ & Heq).
      rewrite Heq in Hresp. injection Hresp as <-. eexists. split; reflexivity.
    + intros (e & He & Hsrc).
      destruct (classify (query_text request)) eqn:Hc; [|reflexivity]. exfalso.
      destruct (get_context_listing_source up request Hc Hresp)
        as (content & source & score & He' & Hsource).
      rewrite He in He'. injection He' as ->. rewrite source_of_element in Hsrc.
      injection Hsrc as Hsrc. rewrite Hsrc in Hsource.
      destruct Hsource as [H | [H | H]]; vm_compute in H; discriminate H.
  - intros client q. split.
    + intros Hc. destruct (generate_response_listing client q Hc) as (m & rest & _ & H).
      now exists (group0 m), rest.
    + intros (url & rest & H).
      destruct (classify q) eqn:Hc; [reflexivity|]. exfalso.
      rewrite (generate_response_generic client q Hc) in H. discriminate H.
Qed.

(** C2, as the program has it. On a query of listing intent, when the
    dedicated call reports failure the client goes on to the generic
    context call, and if that call's answer has no error field and at
    least one element, what it returns is [elements[0].content] of that
    answer.  When the dedicated call succeeds with an empty files list
    there is no second call: the client says the repository appears to
    be empty. *)
Theorem fallback_after_failure (client : ModelContextClient.t) (q : str)
        (m : Match) (s : pyval) :
  github_request q = true ->
  re_search url_pattern q = Some m ->
  get (ModelContextClient.list_github_files client (group0 m)) (lit "success") (PBool false)
  = Ok s ->
  (truthy s = false ->
   fst (generate_response client q) = [ListGithubFiles (group0 m); GetContext q]
   /\ forall elements,
        key_in (lit "error") (ModelContextClient.get_context client q) = Ok false ->
        get (ModelContextClient.get_context client q) (lit "context_elements") (PList [])
        = Ok elements ->
        truthy elements = true ->
        snd (generate_response client q)
        = (first <- first_item elements ;; subscript first (lit "content"))%py)
  /\ (truthy s = true ->
      forall files,
        get (ModelContextClient.list_github_files client (group0 m)) (lit "files") (PList [])
        = Ok files ->
        truthy files = false ->
        exists owner repository,
          get (ModelContextClient.list_github_files client (group0 m)) (lit "owner") PNone
          = Ok owner
          /\ get (ModelContextClient.list_github_files client (group0 m))
                 (lit "repository") PNone = Ok repository
          /\ generate_response client q
             = ([ListGithubFiles (group0 m)],
                Ok (PStr (lit "The repository " ++ format owner ++ lit "/"
                          ++ format repository ++ lit " appears to be empty.")))).
Proof.
  intros Hk Hs Hget. split.
  - intros Hfalse. rewrite (generate_response_fallback client q Hk Hs Hget Hfalse).
    cbv zeta. split; [reflexivity|].
    intros elements Hnoerr Helems Htruthy. cbn [snd].
    rewrite Hnoerr. cbn [bind]. rewrite Helems. cbn [bind]. now rewrite Htruthy.
  - intros Htrue files Hfiles Hempty.
    exact (generate_response_empty client q Hk Hs Hget Htrue Hfiles Hempty).
Qed.


(** ** The parser beyond the sample URLs *)

Lemma run_and_tail (cls : char -> bool) (s : str) :
  exists run tail,
    s = run ++ tail /\ Forall (fun c => cls c = true) run /\ run_ends cls tail.
Proof.
  induction s as [|c s (run & tail & -> & Hrun & Hend)].
  - exists [], []. repeat split; [constructor | now left].
  - destruct (cls c) eqn:Hc.
    + exists (c :: run), tail. repeat split; [now constructor | assumption].
    + exists [], (c :: run ++ tail). repeat split; [constructor | right].
      now exists c, (run ++ tail).
Qed.

Lemma ends_at_dot_or_slash (c : char) (rest : str) :
  c = chr "." \/ c = chr "/" -> run_ends not_slash_dot (c :: rest).
Proof.
  intros H. right. exists c, rest. split; [reflexivity|]. now destruct H as [-> | ->].
Qed.

(** The name of the repository stops at the first dot or slash: what
    follows, a file extension in the name as much as a path, is dropped. *)
Theorem repository_name_is_cut (scheme www o r : str) (c : char) (rest : str) :
  (scheme = [] \/ scheme = lit "http://" \/ scheme = lit "https://") ->
  (www = [] \/ www = lit "www.") ->
  (o <> [] /\ ~ In (chr "/") o) ->
  (r <> [] /\ ~ In (chr "/") r /\ ~ In (chr ".") r) ->
  c = chr "." \/ c = chr "/" ->
  parse_github_url (scheme ++ www ++ lit "github.com/" ++ o ++ lit "/" ++ r ++ c :: rest)
  = Some {| owner := o; repo := r |}.
Proof.
  intros Hs Hw Ho Hr Hc. apply parse_github_url_exact; try assumption.
  now apply ends_at_dot_or_slash.
Qed.

(** The scheme and the [www.] in front of [github.com/] change nothing
    in what the parser returns. *)
Theorem scheme_and_www_are_ignored (scheme www x : str) :
  (scheme = [] \/ scheme = lit "http://" \/ scheme = lit "https://") ->
  (www = [] \/ www = lit "www.") ->
  parse_github_url (scheme ++ www ++ lit "github.com/" ++ x)
  = parse_github_url (lit "github.com/" ++ x).
Proof.
  intros Hs Hw.
  destruct (parse_github_url (lit "github.com/" ++ x)) as [ref|] eqn:Hbare.
  - apply parse_github_url_longest in Hbare
      as (scheme' & www' & tail & Hurl & Hs' & Hw' & Ho & Hr & Hend).
    apply (@prefix_unique [] [] scheme' www' x _ (or_introl eq_refl) (or_introl eq_refl)
             Hs' Hw') in Hurl.
    rewrite Hurl. destruct ref as [o r]. cbn [owner repo] in *.
    now apply parse_github_url_exact.
  - destruct (parse_github_url (scheme ++ www ++ lit "github.com/" ++ x))
      as [ref|] eqn:Hfull; [|reflexivity].
    exfalso. apply parse_github_url_longest in Hfull
      as (scheme' & www' & tail & Hurl & Hs' & Hw' & Ho & Hr & Hend).
    apply (@prefix_unique _ _ _ _ _ _ Hs Hw Hs' Hw') in Hurl. subst x.
    pose proof (@parse_github_url_exact [] [] (owner ref) (repo ref) tail
                  (or_introl eq_refl) (or_introl eq_refl) Ho Hr Hend) as Hexact.
    cbn [app] in Hexact. rewrite Hexact in Hbare. discriminate Hbare.
Qed.

(** ** The search and the parser together *)

Lemma url_segment_head (w : str) :
  url_segment w -> exists c w', w = c :: w' /\ c <> chr "/".
Proof.
  intros (Hw & Hslash & _). destruct w as [|c w']; [congruence|].
  exists c, w'. split; [reflexivity|]. intros ->. apply Hslash. now left.
Qed.

(** The URL found in a query goes to the parser as it is.  It fails to
    parse exactly when its repository segment starts with a dot;
    otherwise the owner is the owner segment, and the repository is the
    repository segment up to its first dot. *)
Theorem found_url_parses_unless_dot (q : str) (m : Match) :
  re_search url_pattern q = Some m ->
  exists scheme www o r,
    group0 m = scheme ++ www ++ lit "github.com/" ++ o ++ lit "/" ++ r
    /\ url_segment o /\ url_segment r
    /\ (parse_github_url (group0 m) = None <-> exists r', r = chr "." :: r')
    /\ forall ref,
         parse_github_url (group0 m) = Some ref ->
         owner ref = o
         /\ exists tail, r = repo ref ++ tail /\ (tail = [] \/ exists t, tail = chr "." :: t).
Proof.
  intros Hm. apply re_search_some in Hm as (pre & post & _ & Hm).
  assert (github_url (group0 m)) as (scheme & www & o & r & Hu & Hs & Hw & Ho & Hr).
  { apply url_pattern_words. now exists (groups m). }
  exists scheme, www, o, r. split; [assumption|]. split; [assumption|]. split; [assumption|].
  assert (Hs0 : scheme = [] \/ scheme = lit "http://" \/ scheme = lit "https://")
    by (now right).
  assert (Ho' : o <> [] /\ ~ In (chr "/") o) by (split; apply Ho).
  assert (Hshape : forall ref,
             parse_github_url (group0 m) = Some ref ->
             owner ref = o /\ exists tail, r = repo ref ++ tail
                                           /\ repo ref <> [] /\ ~ In (chr ".") (repo ref)
                                           /\ run_ends not_slash_dot tail).
  { intros ref Href. apply parse_github_url_longest in Href
      as (scheme' & www' & tail & Hurl & Hs' & Hw' & Hoo & Hrr & Hend).
    rewrite Hu in Hurl.
    apply (@prefix_unique _ _ _ _ _ _ Hs0 Hw Hs' Hw') in Hurl.
    apply split_at_slash in Hurl as [<- Hurl]; [|apply Ho | apply Hoo].
    split; [reflexivity|]. exists tail. split; [assumption|].
    split; [apply Hrr|]. split; [apply Hrr | assumption]. }
  destruct (url_segment_head Hr) as (c & r0 & -> & Hc).
  split.
  - split.
    + intros Hnone. destruct (N.eq_dec c (chr ".")) as [-> | Hdot]; [now exists r0|].
      exfalso.
      destruct (run_and_tail not_slash_dot r0) as (run & tail & -> & Hrun & Hend).
      rewrite Hu in Hnone.
      assert (Hname : (c :: run) <> [] /\ ~ In (chr "/") (c :: run) /\ ~ In (chr ".") (c :: run)).
      { split; [discriminate|]. apply all_not_slash_dot. constructor; [|assumption].
        unfold not_slash_dot. apply andb_true_iff.
        split; apply negb_true_iff, N.eqb_neq; assumption. }
      pose proof (@parse_github_url_exact scheme www o (c :: run) tail Hs0 Hw Ho' Hname Hend)
        as Hexact.
      cbn [app] in Hexact. rewrite Hexact in Hnone. discriminate Hnone.
    + intros (r' & Hr'). injection Hr' as -> ->.
      destruct (parse_github_url (group0 m)) as [ref|] eqn:Href; [|reflexivity].
      exfalso. destruct (Hshape ref eq_refl) as (_ & tail & Hcut & Hne & Hnodot & _).
      destruct (repo ref) as [|d rr]; [congruence|].
      injection Hcut as <- _. apply Hnodot. now left.
  - intros ref Href. destruct (Hshape ref Href) as (Howner & tail & Hcut & _ & _ & Hend).
    split; [assumption|]. exists tail. split; [assumption|].
    destruct Hend as [-> | (d & t & -> & Hd)]; [now left | right].
    exists t. f_equal. unfold not_slash_dot in Hd. apply andb_false_iff in Hd.
    destruct Hd as [Hd | Hd]; apply negb_false_iff, N.eqb_eq in Hd; [|assumption].
    exfalso. destruct Hr as (_ & Hslash & _). apply Hslash. rewrite Hcut.
    apply in_or_app. right. left. now symmetry.
Qed.

Lemma occurs_map (f : char -> char) (p s : str) :
  occurs p s -> occurs (map f p) (map f s).
Proof.
  intros (pre & post & ->). exists (map f pre), (map f post). now rewrite !map_app.
Qed.

(** In an ASCII query the test for the word "github" adds nothing once
    a URL is found: the URL has it.  Such a query is of listing intent
    exactly when it contains "list" or "files", in any case and anywhere,
    the URL included. *)
Theorem github_keyword_is_implied (q : str) (m : Match) :
  forallb is_ascii q = true ->
  re_search url_pattern q = Some m ->
  contains (lit "github") (lower q) = true
  /\ (classify q = Listing <->
      contains (lit "list") (lower q) || contains (lit "files") (lower q) = true).
Proof.
  intros Hascii Hm.
  assert (contains (lit "github") (lower q) = true) as Hgithub.
  { unfold lower. rewrite Hascii. apply contains_iff.
    change (lit "github") with (map ascii_lower (lit "github")). apply occurs_map.
    apply re_search_some in Hm as Hfound. destruct Hfound as (pre & post & -> & Hg).
    assert (github_url (group0 m)) as (scheme & www & o & r & -> & _)
      by (apply url_pattern_words; now exists (groups m)).
    exists (pre ++ scheme ++ www), (lit ".com/" ++ (o ++ lit "/" ++ r) ++ post).
    change (lit "github.com/") with (lit "github" ++ lit ".com/").
    now rewrite <- !app_assoc. }
  split; [assumption|]. rewrite classify_listing. unfold github_request.
  rewrite Hgithub. cbn [andb]. split.
  - now intros [H _].
  - intros H. split; [assumption | now exists m].
Qed.

(** ** The server when a backend misbehaves *)

Lemma get_context_for_repository (up : Upstream) (request : ContextRequest) (ref : RepoRef) :
  names_repository (query_text request) ref ->
  get_context up request =
  (let files_data := list_github_repo_files up (owner ref) (repo ref) [] in
   elements <-
     (has_error <- key_in (lit "error") files_data ;;
      if negb has_error then
        items <- iterate files_data ;;
        lists <- context_listing items [] [] ;;
        Ok [element (PStr (listing_content ref (snd lists ++ fst lists)))
                    (lit "github_api") 0.95%float]
      else
        error_msg <- get files_data (lit "error")
          (PStr (lit "Unknown error when accessing GitHub repository")) ;;
        Ok [element (PStr (lit "Error accessing GitHub repository: " ++ format error_msg))
                    (lit "github_api_error") 0.9%float]) ;;
   Ok (context_response elements (query_text request)))%py.
Proof.
  intros (Hk & m & Hs & Hp). exact (get_context_listing_path up request Hk Hs Hp).
Qed.

Lemma get_context_error_dict (up : Upstream) (request : ContextRequest) (ref : RepoRef)
      (reason : pyval) :
  names_repository (query_text request) ref ->
  list_github_repo_files up (owner ref) (repo ref) [] = error_dict reason ->
  get_context up request
  = Ok (context_response
          [element (PStr (lit "Error accessing GitHub repository: " ++ format reason))
                   (lit "github_api_error") 0.9%float]
          (query_text request)).
Proof.
  intros Hq Hfiles. rewrite (get_context_for_repository up request Hq). cbv zeta.
  rewrite Hfiles. destruct (lookup_error_dict reason) as [-> Hget].
  unfold bind. simpl negb. cbv iota. now rewrite Hget.
Qed.

Lemma query_llama_failure (up : Upstream) (text : str) :
  model_call_fails (llama_post up text) ->
  exists reason, query_llama up text = PStr (lit "Error" ++ reason).
Proof.
  unfold query_llama, model_call_fails.
  destruct (llama_post up text) as [e | status body].
  - intros _. exists (lit ": " ++ e). reflexivity.
  - destruct (Z.eqb_spec status 200) as [-> | Hne].
    + destruct body as [[| b | z | f | s | items | entries] | e]; intros H;
        first [ exfalso; apply H; reflexivity | eexists (lit ": " ++ _); reflexivity ].
    + intros _. exists (lit " querying model: " ++ decimal status). reflexivity.
Qed.

(** A model backend that is down does not make [get_context] fail: for
    a query of generic intent the response is built all the same, and
    its content is a text that starts with [Error], under the source and
    the score of an answer.  A 200 answer without a [response] field
    gives the text [No response from model]. *)
Theorem model_failure_is_served_as_content (up : Upstream) (request : ContextRequest) :
  classify (query_text request) = Generic ->
  ((forall prompt, model_call_fails (llama_post up prompt)) ->
   exists reason,
     get_context up request
     = Ok (context_response
             [element (PStr (lit "Error" ++ reason)) (lit "llama_model") 0.9%float]
             (query_text request)))
  /\ ((forall prompt, exists entries,
          llama_post up prompt = Response 200 (JsonValue (PDict entries))
          /\ lookup (lit "response") entries = None) ->
      get_context up request
      = Ok (context_response
              [element (PStr (lit "No response from model")) (lit "llama_model") 0.9%float]
              (query_text request))).
Proof.
  intros Hc. destruct (get_context_model up request Hc) as (indent & _ & ->). split.
  - intros Hdown.
    destruct (query_llama_failure up _ (Hdown (llama_prompt indent (query_text request))))
      as [reason ->].
    now exists reason.
  - intros Hbare.
    destruct (Hbare (llama_prompt indent (query_text request))) as (entries & Hpost & Hnone).
    unfold query_llama. now rewrite Hpost, Hnone.
Qed.

(** Only status 200 counts as success for the contents call: any other
    status, 201 or 204 as much as 404, is reported as an error.  The
    reason is the body's [message]; without a [message] it is the status
    code, a body that is not JSON gives the decoder's complaint, and a
    JSON list gives the text of the attribute error on [.get]. *)
Theorem any_status_but_200_is_a_failure (up : Upstream) (request : ContextRequest)
        (ref : RepoRef) (status_code : Z) (body : json_body) :
  names_repository (query_text request) ref ->
  github_get up (contents_url (owner ref) (repo ref) []) = Response status_code body ->
  status_code <> 200%Z ->
  exists reason,
    get_context up request
    = Ok (context_response
            [element (PStr (lit "Error accessing GitHub repository: " ++ format reason))
                     (lit "github_api_error") 0.9%float]
            (query_text request))
    /\ (forall entries msg,
          body = JsonValue (PDict entries) ->
          lookup (lit "message") entries = Some msg -> reason = msg)
    /\ (forall entries,
          body = JsonValue (PDict entries) ->
          lookup (lit "message") entries = None ->
          reason = PStr (lit "Error: Status code " ++ decimal status_code))
    /\ (forall e, body = JsonFails e -> reason = PStr e)
    /\ (forall items,
          body = JsonValue (PList items) ->
          reason = PStr (lit "'list' object has no attribute 'get'")).
Proof.
  intros Hq Hget Hne.
  assert (exists reason,
             list_github_repo_files up (owner ref) (repo ref) [] = error_dict reason
             /\ (forall entries msg,
                   body = JsonValue (PDict entries) ->
                   lookup (lit "message") entries = Some msg -> reason = msg)
             /\ (forall entries,
                   body = JsonValue (PDict entries) ->
                   lookup (lit "message") entries = None ->
                   reason = PStr (lit "Error: Status code " ++ decimal status_code))
             /\ (forall e, body = JsonFails e -> reason = PStr e)
             /\ (forall items,
                   body = JsonValue (PList items) ->
                   reason = PStr (lit "'list' object has no attribute 'get'")))
    as (reason & Hfiles & Hcases).
  { unfold list_github_repo_files. rewrite Hget.
    assert (Z.eqb status_code 200 = false) as -> by now apply Z.eqb_neq.
    destruct body as [[| b | z | f | s | items | entries] | e];
      try (destruct (lookup (lit "message") entries) as [msg|] eqn:Hmsg);
      (eexists; split; [reflexivity|]);
      (split; [|split; [|split]]); intros;
      first [ discriminate | reflexivity | congruence ]. }
  exists reason. split; [|exact Hcases].
  exact (get_context_error_dict up request Hq Hfiles).
Qed.

(** A 200 answer that is a JSON object, not a list.  With an [error]
    key it is reported as an error, under the value of the key.  Without
    one the handler goes on to iterate over it: an empty object gives an
    empty listing, any other makes it raise a [TypeError], and no
    response is returned. *)
Theorem object_body_on_the_listing_path (up : Upstream) (request : ContextRequest)
        (ref : RepoRef) (entries : list (str * pyval)) :
  names_repository (query_text request) ref ->
  github_get up (contents_url (owner ref) (repo ref) [])
  = Response 200 (JsonValue (PDict entries)) ->
  (forall v,
      lookup (lit "error") entries = Some v ->
      get_context up request
      = Ok (context_response
              [element (PStr (lit "Error accessing GitHub repository: " ++ format v))
                       (lit "github_api_error") 0.9%float]
              (query_text request)))
  /\ (lookup (lit "error") entries = None -> entries <> [] ->
      get_context up request = Raise TypeError)
  /\ (entries = [] ->
      get_context up request
      = Ok (context_response
              [element (PStr (listing_content ref [])) (lit "github_api") 0.95%float]
              (query_text request))).
Proof.
  intros Hq Hget.
  assert (list_github_repo_files up (owner ref) (repo ref) [] = PDict entries) as Hfiles.
  { unfold list_github_repo_files. now rewrite Hget. }
  rewrite (get_context_for_repository up request Hq). cbv zeta. rewrite Hfiles.
  split; [|split].
  - intros v Hv. unfold key_in, get, bind. rewrite Hv. reflexivity.
  - intros Hnone Hne. unfold key_in, bind. rewrite Hnone. simpl negb. cbv iota.
    destruct entries as [|[k v] rest]; [congruence|]. reflexivity.
  - intros ->. reflexivity.
Qed.

(** The table of sources and scores: whatever [get_context] returns has
    one element, whose source and score are one of four pairs; on the
    three GitHub rows the content is a text. *)
Theorem sources_and_scores (up : Upstream) (request : ContextRequest)
        (resp : ContextResponse) :
  get_context up request = Ok resp ->
  exists content source score,
    context_elements resp = [element content source score]
    /\ ((source = lit "github_api" /\ score = 0.95%float /\ exists s, content = PStr s)
        \/ (source = lit "github_api_error" /\ score = 0.9%float
            /\ exists s, content = PStr s)
        \/ (source = lit "github_url_parser" /\ score = 0.9%float
            /\ exists s, content = PStr s)
        \/ (source = lit "llama_model" /\ score = 0.9%float)).
Proof.
  destruct (classify (query_text request)) eqn:Hc.
  - apply classify_listing in Hc as [Hk [m Hs]].
    destruct (parse_github_url (group0 m)) as [ref|] eqn:Hp.
    + rewrite (get_context_listing_path up request Hk Hs Hp). cbv zeta. unfold bind.
      destruct (key_in _ _) as [[|]|]; simpl negb; cbv iota.
      * destruct (get _ _ _); intros [= <-]; do 3 eexists;
          (split; [reflexivity|]); right; left; repeat split; now eexists.
      * destruct (iterate _); [|discriminate].
        destruct (context_listing _ _ _); intros [= <-]; do 3 eexists;
          (split; [reflexivity|]); left; repeat split; now eexists.
      * discriminate.
    + rewrite (get_context_invalid_url up request Hk Hs Hp). intros [= <-].
      do 3 eexists; (split; [reflexivity|]); right; right; left; repeat split; now eexists.
  - destruct (get_context_model up request Hc) as (indent & _ & ->). intros [= <-].
    do 3 eexists; (split; [reflexivity|]); right; right; right; now split.
Qed.

(** ** The dedicated endpoint *)

Lemma list_github_repo_files_not_ok (up : Upstream) (o r path : str) :
  not_ok (github_get up (contents_url o r path)) ->
  exists reason, list_github_repo_files up o r path = error_dict reason.
Proof.
  intros Hnot. destruct (list_github_repo_files_cases up o r path)
    as [H | (v & Hget & _)]; [assumption|].
  rewrite Hget in Hnot. now contradiction Hnot.
Qed.

Lemma list_files_for_repository (up : Upstream) (request : GitHubListFilesRequest)
      (ref : RepoRef) :
  parse_github_url (repo_url request) = Some ref ->
  list_files up request =
  (let files_data := list_github_repo_files up (owner ref) (repo ref) [] in
   has_error <- key_in (lit "error") files_data ;;
   if has_error : bool then
     reason <- subscript files_data (lit "error") ;;
     Ok {| GitHubListFilesResponse.files := [];
           GitHubListFilesResponse.repository := repo ref;
           GitHubListFilesResponse.owner := owner ref;
           GitHubListFilesResponse.success := false;
           GitHubListFilesResponse.message :=
             Some (lit "Error accessing repository: " ++ format reason) |}
   else
     items <- iterate files_data ;;
     file_list <- dedicated_listing items [] ;;
     Ok {| GitHubListFilesResponse.files := file_list;
           GitHubListFilesResponse.repository := repo ref;
           GitHubListFilesResponse.owner := owner ref;
           GitHubListFilesResponse.success := true;
           GitHubListFilesResponse.message := None |})%py.
Proof. intros Hp. unfold list_files. now rewrite Hp. Qed.

(** What every answer of [list_files] keeps to: a message is there
    exactly when [success] is false, and then the list of files is
    empty; the owner is empty exactly when the URL did not parse, which is
    also exactly when the message is the one about an invalid URL; and
    otherwise owner and repository are those of the URL. *)
Theorem list_files_answers_are_consistent (up : Upstream)
        (request : GitHubListFilesRequest) (r : GitHubListFilesResponse.t) :
  list_files up request = Ok r ->
  (GitHubListFilesResponse.success r = true <-> GitHubListFilesResponse.message r = None)
  /\ (GitHubListFilesResponse.success r = false -> GitHubListFilesResponse.files r = [])
  /\ (parse_github_url (repo_url request) = None <-> GitHubListFilesResponse.owner r = [])
  /\ (parse_github_url (repo_url request) = None <->
      GitHubListFilesResponse.message r
      = Some (lit "Invalid GitHub repository URL. Please provide a URL in the format: https://github.com/owner/repo"))
  /\ (forall ref,
        parse_github_url (repo_url request) = Some ref ->
        GitHubListFilesResponse.owner r = owner ref
        /\ GitHubListFilesResponse.repository r = repo ref).
Proof.
  destruct (parse_github_url (repo_url request)) as [ref|] eqn:Hp.
  - rewrite (list_files_for_repository up request Hp). cbv zeta.
    assert (owner ref <> []) as Howner.
    { apply parse_github_url_longest in Hp as (_ & _ & _ & _ & _ & _ & [H _] & _).
      exact H. }
    unfold bind. destruct (key_in _ _) as [[|]|]; [| |discriminate].
    + destruct (subscript _ _) as [reason|]; [|discriminate]. intros [= <-].
      cbn [GitHubListFilesResponse.success GitHubListFilesResponse.message
           GitHubListFilesResponse.files GitHubListFilesResponse.owner
           GitHubListFilesResponse.repository].
      repeat split; try discriminate; try congruence.
    + destruct (iterate _) as [items|]; [|discriminate].
      destruct (dedicated_listing _ _) as [file_list|]; [|discriminate]. intros [= <-].
      cbn [GitHubListFilesResponse.success GitHubListFilesResponse.message
           GitHubListFilesResponse.files GitHubListFilesResponse.owner
           GitHubListFilesResponse.repository].
      repeat split; try discriminate; try congruence.
  - unfold list_files. rewrite Hp. intros [= <-].
    cbn [GitHubListFilesResponse.success GitHubListFilesResponse.message
         GitHubListFilesResponse.files GitHubListFilesResponse.owner
         GitHubListFilesResponse.repository].
    repeat split; try discriminate; try congruence.
Qed.

(** When the contents call does not come back with status 200, the two
    endpoints tell of the same reason, each in its own way: [list_files]
    as a [success: false] answer that names the repository and carries
    the reason in its message, [get_context] as an error element. *)
Theorem both_endpoints_report_the_same_reason (up : Upstream)
        (request : ContextRequest) (listing : GitHubListFilesRequest) (ref : RepoRef) :
  names_repository (query_text request) ref ->
  parse_github_url (repo_url listing) = Some ref ->
  not_ok (github_get up (contents_url (owner ref) (repo ref) [])) ->
  exists reason,
    list_files up listing
    = Ok {| GitHubListFilesResponse.files := [];
            GitHubListFilesResponse.repository := repo ref;
            GitHubListFilesResponse.owner := owner ref;
            GitHubListFilesResponse.success := false;
            GitHubListFilesResponse.message :=
              Some (lit "Error accessing repository: " ++ format reason) |}
    /\ get_context up request
       = Ok (context_response
               [element (PStr (lit "Error accessing GitHub repository: " ++ format reason))
                        (lit "github_api_error") 0.9%float]
               (query_text request)).
Proof.
  intros Hq Hp Hnot.
  destruct (list_github_repo_files_not_ok up (owner ref) (repo ref) [] Hnot)
    as [reason Hfiles].
  exists reason. split; [|exact (get_context_error_dict up request Hq Hfiles)].
  rewrite (list_files_for_repository up listing Hp). cbv zeta. now rewrite Hfiles.
Qed.







(** As long as the GitHub backend keeps to its schema (a 200 answer is
    a list of entries), neither endpoint raises, whatever else the two
    backends do. *)
Theorem no_exception_on_schema (up : Upstream) :
  answers_with_listings up ->
  (forall request, exists resp, get_context up request = Ok resp)
  /\ (forall listing, exists r, list_files up listing = Ok r).
Proof.
  intros Hup. split; [intros request; now apply get_context_returns|].
  intros listing. destruct (parse_github_url (repo_url listing)) as [ref|] eqn:Hp.
  - rewrite (list_files_for_repository up listing Hp). cbv zeta.
    destruct (list_github_repo_files_cases up (owner ref) (repo ref) [])
      as [[reason ->] | (v & Hget & ->)].
    + now eexists.
    + destruct (Hup _ _ Hget) as (items & -> & Hitems).
      rewrite (key_in_listing _ Hitems). unfold bind. cbv iota. simpl iterate. cbv iota.
      rewrite (dedicated_listing_entries Hitems). now eexists.
  - unfold list_files. rewrite Hp. now eexists.
Qed.

(** ** The health probe *)

(** [health_check] says [healthy] exactly when both probes come back
    with status 200, and [degraded] in every other case; each of the two
    status fields says [connected] exactly when its own probe did. *)
Theorem healthy_iff_both_probes_answer_200 (probes : Probes) :
  (lookup (lit "status") (health_check probes) = Some (PStr (lit "healthy")) <->
   (exists b, llama_tags probes = Response 200 b)
   /\ (exists b, github_rate_limit probes = Response 200 b))
  /\ (lookup (lit "status") (health_check probes) = Some (PStr (lit "healthy"))
      \/ lookup (lit "status") (health_check probes) = Some (PStr (lit "degraded")))
  /\ (lookup (lit "llama_status") (health_check probes) = Some (PStr (lit "connected")) <->
      exists b, llama_tags probes = Response 200 b)
  /\ (lookup (lit "github_status") (health_check probes) = Some (PStr (lit "connected")) <->
      exists b, github_rate_limit probes = Response 200 b).
Proof.
  unfold health_check.
  destruct (llama_tags probes) as [e1 | s1 b1], (github_rate_limit probes) as [e2 | s2 b2];
    try destruct (Z.eqb_spec s1 200) as [-> | H1];
    try destruct (Z.eqb_spec s2 200) as [-> | H2];
    cbv zeta; cbn [lookup str_eqb lit list_ascii_of_string map N_of_ascii app andb];
    (split; [split; [intros H; try discriminate H
                    | intros [[c1 Hc1] [c2 Hc2]]; try discriminate Hc1;
                      try discriminate Hc2; try (injection Hc1 as ? _; contradiction);
                      try (injection Hc2 as ? _; contradiction)]
            | split; [first [now left | now right] | split; split;
                      [intros H; try discriminate H
                      | intros [c Hc]; try discriminate Hc;
                        try (injection Hc as ? _; contradiction)
                      | intros H; try discriminate H
                      | intros [c Hc]; try discriminate Hc;
                        try (injection Hc as ? _; contradiction)]]]).
  all: try (split; now eexists); try now eexists.
Qed.

(** ** The client, call by call *)

Lemma generate_response_success_calls (client : ModelContextClient.t) (q : str)
      (m : Match) (s : pyval) :
  github_request q = true ->
  re_search url_pattern q = Some m ->
  get (ModelContextClient.list_github_files client (group0 m)) (lit "success") (PBool false)
  = Ok s ->
  truthy s = true ->
  fst (generate_response client q) = [ListGithubFiles (group0 m)].
Proof.
  intros Hk Hs Hget Htrue. unfold generate_response. rewrite Hk, Hs. cbv zeta.
  unfold tbind at 1. unfold call_list_github_files.
  unfold tbind at 1. unfold lift at 1. rewrite Hget, Htrue.
  destruct (ModelContextClient.list_github_files client (group0 m)) as
    [| b | z | f | t | items | entries]; try discriminate.
  unfold tbind, lift, ret, get.
  destruct (lookup (lit "files") entries) as [files|];
    [destruct (truthy files); [destruct (join_values [newline] files)|]|];
    destruct (lookup (lit "owner") entries), (lookup (lit "repository") entries);
    reflexivity.
Qed.

Lemma generate_response_not_a_dict (client : ModelContextClient.t) (q : str)
      (m : Match) (e : exn) :
  github_request q = true ->
  re_search url_pattern q = Some m ->
  get (ModelContextClient.list_github_files client (group0 m)) (lit "success") (PBool false)
  = Raise e ->
  generate_response client q = ([ListGithubFiles (group0 m)], Raise e).
Proof.
  intros Hk Hs Hget. unfold generate_response. rewrite Hk, Hs. cbv zeta.
  unfold tbind at 1. unfold call_list_github_files.
  unfold tbind at 1. unfold lift at 1. now rewrite Hget.
Qed.

(** The calls [generate_response] makes.  On a query of generic intent
    it makes one, to the context endpoint, with the query.  On a query of
    listing intent it first calls the dedicated endpoint with the URL
    found, and then the context endpoint, with the query, exactly when
    the first answer's [success] is missing or false; it never makes a
    third call. *)
Theorem calls_of_generate_response (client : ModelContextClient.t) (q : str) :
  (classify q = Generic -> fst (generate_response client q) = [GetContext q])
  /\ (classify q = Listing ->
      exists m,
        re_search url_pattern q = Some m
        /\ (fst (generate_response client q) = [ListGithubFiles (group0 m)]
            \/ fst (generate_response client q)
               = [ListGithubFiles (group0 m); GetContext q])
        /\ (fst (generate_response client q) = [ListGithubFiles (group0 m); GetContext q]
            <-> exists s,
                get (ModelContextClient.list_github_files client (group0 m))
                    (lit "success") (PBool false) = Ok s
                /\ truthy s = false)).
Proof.
  split.
  - intros Hc. now rewrite (generate_response_generic client q Hc).
  - intros Hc. apply classify_listing in Hc as [Hk [m Hs]]. exists m.
    split; [assumption|].
    destruct (get (ModelContextClient.list_github_files client (group0 m))
                  (lit "success") (PBool false)) as [s | e] eqn:Hget.
    + destruct (truthy s) eqn:Ht.
      * rewrite (generate_response_success_calls client q Hk Hs Hget Ht).
        split; [now left|]. split; [discriminate|].
        intros (s' & [= <-] & Hfalse). congruence.
      * rewrite (generate_response_fallback client q Hk Hs Hget Ht). cbv zeta. cbn [fst].
        split; [now right|]. split; [|reflexivity]. intros _. now exists s.
    + rewrite (generate_response_not_a_dict client q Hk Hs Hget). cbn [fst].
      split; [now left|]. split; [discriminate|]. intros (s & Hs' & _). discriminate Hs'.
Qed.

Lemma all_str_of_strings (fs : list str) : all_str (map PStr fs) = Ok fs.
Proof.
  induction fs as [|f fs IH]; [reflexivity|]. cbn [map all_str]. now rewrite IH.
Qed.

Lemma all_str_rejects (items : list pyval) (v : pyval) :
  In v items -> (forall s, v <> PStr s) -> all_str items = Raise TypeError.
Proof.
  induction items as [|x items IH]; intros Hin Hv; [contradiction|].
  destruct Hin as [-> | Hin].
  - destruct v; try reflexivity. now contradiction (Hv s).
  - cbn [all_str]. destruct x; try reflexivity. now rewrite (IH Hin Hv).
Qed.

(** A listing that succeeds with files to show: one call, and the
    answer is a heading that names owner and repository, an empty line,
    and the files as received, one per line.  If an item of [files] is
    not a string, joining them raises a [TypeError]. *)
Theorem files_are_shown_one_per_line (client : ModelContextClient.t) (q : str)
        (m : Match) (s o r : pyval) (items : list pyval) :
  github_request q = true ->
  re_search url_pattern q = Some m ->
  get (ModelContextClient.list_github_files client (group0 m)) (lit "success") (PBool false)
  = Ok s ->
  truthy s = true ->
  get (ModelContextClient.list_github_files client (group0 m)) (lit "files") (PList [])
  = Ok (PList items) ->
  items <> [] ->
  get (ModelContextClient.list_github_files client (group0 m)) (lit "owner") PNone = Ok o ->
  get (ModelContextClient.list_github_files client (group0 m)) (lit "repository") PNone
  = Ok r ->
  (forall fs,
      items = map PStr fs ->
      generate_response client q
      = ([ListGithubFiles (group0 m)],
         Ok (PStr ((lit "Files in " ++ format o ++ lit "/" ++ format r ++ lit ":"
                    ++ [newline; newline]) ++ join [newline] fs))))
  /\ (forall v,
        In v items -> (forall t, v <> PStr t) ->
        generate_response client q = ([ListGithubFiles (group0 m)], Raise TypeError)).
Proof.
  intros Hk Hs Hget Htrue Hfiles Hne Ho Hr.
  assert (generate_response client q
          = ([ListGithubFiles (group0 m)],
             (strs <- all_str items ;;
              Ok (PStr ((lit "Files in " ++ format o ++ lit "/" ++ format r ++ lit ":"
                         ++ [newline; newline]) ++ join [newline] strs)))%py)) as ->.
  { unfold generate_response. rewrite Hk, Hs. cbv zeta.
    unfold tbind at 1. unfold call_list_github_files.
    unfold tbind at 1. unfold lift at 1. rewrite Hget, Htrue.
    unfold tbind at 1. unfold lift at 1. rewrite Hfiles.
    assert (truthy (PList items) = true) as -> by (now destruct items).
    unfold tbind, lift, ret. rewrite Ho, Hr. unfold join_values, iterate, bind.
    now destruct (all_str items). }
  split.
  - intros fs ->. now rewrite all_str_of_strings.
  - intros v Hin Hv. now rewrite (all_str_rejects _ Hin Hv).
Qed.

(** On a query of generic intent the error of the context call is told
    to the user as it is: the answer is a fixed sentence followed by the
    value of the [error] field. *)
Theorem generic_error_is_told (client : ModelContextClient.t) (q : str)
        (entries : list (str * pyval)) (reason : pyval) :
  classify q = Generic ->
  ModelContextClient.get_context client q = PDict entries ->
  lookup (lit "error") entries = Some reason ->
  generate_response client q
  = ([GetContext q],
     Ok (PStr (lit "Sorry, I couldn't generate a proper response due to: "
               ++ format reason))).
Proof.
  intros Hc Hdata Herr. rewrite (generate_response_generic client q Hc). cbv zeta.
  rewrite Hdata. unfold key_in, subscript, bind. now rewrite Herr.
Qed.

(** A context answer without an error and without elements
    ([context_elements] missing, or empty) gets a fixed sentence: one on
    a query of generic intent, another after a listing that failed. *)
Theorem nothing_to_show (client : ModelContextClient.t) (q : str)
        (entries : list (str * pyval)) :
  ModelContextClient.get_context client q = PDict entries ->
  lookup (lit "error") entries = None ->
  (lookup (lit "context_elements") entries = None
   \/ exists elements,
       lookup (lit "context_elements") entries = Some elements /\ truthy elements = false) ->
  (classify q = Generic ->
   generate_response client q
   = ([GetContext q],
      Ok (PStr (lit "I don't have enough information to answer that question."))))
  /\ (forall m s,
        github_request q = true ->
        re_search url_pattern q = Some m ->
        get (ModelContextClient.list_github_files client (group0 m))
            (lit "success") (PBool false) = Ok s ->
        truthy s = false ->
        generate_response client q
        = ([ListGithubFiles (group0 m); GetContext q],
           Ok (PStr (lit "I couldn't retrieve any information about the GitHub repository.")))).
Proof.
  intros Hdata Hnoerr Hnone.
  assert (exists elements,
             get (PDict entries) (lit "context_elements") (PList []) = Ok elements
             /\ truthy elements = false) as (elements & Hget & Hfalse).
  { unfold get. destruct Hnone as [-> | (elements & -> & Hf)]; now eexists. }
  assert (key_in (lit "error") (PDict entries) = Ok false) as Hkey
    by (unfold key_in; now rewrite Hnoerr).
  split.
  - intros Hc. rewrite (generate_response_generic client q Hc). cbv zeta.
    rewrite Hdata, Hkey. cbn [bind]. rewrite Hget. cbn [bind]. now rewrite Hfalse.
  - intros m s Hk Hs Hsucc Ht.
    rewrite (generate_response_fallback client q Hk Hs Hsucc Ht). cbv zeta.
    rewrite Hdata, Hkey. cbn [bind]. rewrite Hget. cbn [bind]. now rewrite Hfalse.
Qed.

(** ** The client on a server that cannot be reached *)

Lemma http_get_context_failed (server : Server) (q text : str) :
  post_failed (post_context server q) text ->
  http_get_context server q = PDict [(lit "error", PStr text)].
Proof.
  unfold post_failed, http_get_context.
  destruct (post_context server q) as [e | status http_error body].
  - now intros ->.
  - destruct (raise_for_status status); [now intros ->|].
    destruct body; [contradiction | now intros ->].
Qed.

Lemma http_list_github_files_failed (server : Server) (url text : str) :
  post_failed (post_list_files server url) text ->
  http_list_github_files server url
  = PDict [(lit "error", PStr text); (lit "success", PBool false)].
Proof.
  unfold post_failed, http_list_github_files.
  destruct (post_list_files server url) as [e | status http_error body].
  - now intros ->.
  - destruct (raise_for_status status); [now intros ->|].
    destruct body; [contradiction | now intros ->].
Qed.

(** When no post to the server succeeds (no connection, a time-out, a
    4xx or 5xx status, a body that is not JSON), the user gets a sentence
    and no exception.  On a query of generic intent the sentence ends
    with the text of the failure.  On a query of listing intent both
    endpoints are tried and the sentence ends with [Unknown error]: the
    text of neither failure is shown. *)
Theorem server_out_of_reach (server : Server) (q text : str) :
  post_failed (post_context server q) text ->
  (forall url, exists t, post_failed (post_list_files server url) t) ->
  (classify q = Generic ->
   generate_response (http_client server) q
   = ([GetContext q],
      Ok (PStr (lit "Sorry, I couldn't generate a proper response due to: " ++ text))))
  /\ (classify q = Listing ->
      exists m,
        re_search url_pattern q = Some m
        /\ generate_response (http_client server) q
           = ([ListGithubFiles (group0 m); GetContext q],
              Ok (PStr (lit "Sorry, I couldn't list the GitHub repository files: Unknown error")))).
Proof.
  intros Hctx Hlist.
  pose proof (http_get_context_failed server q text Hctx) as Hdata.
  split.
  - intros Hc. rewrite (generate_response_generic (http_client server) q Hc). cbv zeta.
    cbn [ModelContextClient.get_context http_client]. now rewrite Hdata.
  - intros Hc. apply classify_listing in Hc as [Hk [m Hs]]. exists m.
    split; [assumption|]. destruct (Hlist (group0 m)) as [t Ht].
    pose proof (http_list_github_files_failed server (group0 m) t Ht) as Hres.
    rewrite (@generate_response_fallback (http_client server) q m (PBool false) Hk Hs).
    + cbv zeta. cbn [ModelContextClient.get_context ModelContextClient.list_github_files
                       http_client].
      now rewrite Hdata, Hres.
    + cbn [ModelContextClient.list_github_files http_client]. now rewrite Hres.
    + reflexivity.
Qed.

(** ** The read loop *)

Lemma read_loop_answered (client : ModelContextClient.t) (before rest : list str) :
  Forall (answered client) before ->
  read_loop client (before ++ rest)
  = (let '(calls, printed, e) := read_loop client rest in
     (concat (map (fun i => fst (generate_response client i)) before) ++ calls,
      map (printed_answer client) before ++ printed,
      e)).
Proof.
  induction 1 as [|i before [Hne [response Hresp]] _ IH].
  - cbn [app map concat]. now destruct (read_loop client rest) as [[calls printed] e].
  - cbn [app read_loop map concat].
    destruct (str_eqb (lower i) (lit "exit")) eqn:Hexit;
      [now apply str_eqb_eq in Hexit|].
    unfold printed_answer at 1.
    destruct (generate_response client i) as [calls r] eqn:Hgen. cbn [snd fst] in *.
    subst r. rewrite IH.
    destruct (read_loop client rest) as [[more printed] e]. now rewrite <- app_assoc.
Qed.

(** The session stops at the first line that reads [exit] in any case:
    every line before it is answered once, in order, after the banner,
    and nothing after it is read or sent to the server.  Without such a
    line the session ends when the input does. *)
Theorem session_stops_at_exit (client : ModelContextClient.t)
        (before : list str) (stop : str) (after : list str) :
  Forall (answered client) before ->
  lower stop = lit "exit" ->
  main client (before ++ stop :: after)
  = (concat (map (fun i => fst (generate_response client i)) before),
     banner ++ map (printed_answer client) before,
     Exited)
  /\ main client before
     = (concat (map (fun i => fst (generate_response client i)) before),
        banner ++ map (printed_answer client) before,
        InputEnded).
Proof.
  intros Hbefore Hstop. unfold main. split.
  - rewrite (@read_loop_answered client before (stop :: after) Hbefore).
    cbn [read_loop]. rewrite Hstop. cbn [str_eqb]. rewrite str_eqb_refl.
    now rewrite !app_nil_r.
  - rewrite <- (app_nil_r before) at 1.
    rewrite (@read_loop_answered client before [] Hbefore). cbn [read_loop].
    now rewrite !app_nil_r.
Qed.

(** ** Client and server together *)

Lemma encodable_lit (s : string) : encodable (lit s) = true.
Proof.
  unfold encodable, lit. apply forallb_forall. intros c Hin.
  apply in_map_iff in Hin as (a & <- & _). pose proof (N_ascii_bounded a) as Ha.
  unfold is_surrogate. apply negb_true_iff, andb_false_iff. left. apply N.leb_gt. lia.
Qed.

Lemma encodable_app (a b : str) : encodable (a ++ b) = encodable a && encodable b.
Proof. apply forallb_app. Qed.

Lemma encodable_markers : encodable folder_marker = true /\ encodable file_marker = true.
Proof. split; reflexivity. Qed.

Lemma traverse_strings (fs : list str) :
  traverse wire (map PStr fs)
  = if forallb encodable fs then Some (map PStr fs) else None.
Proof.
  induction fs as [|s fs IH]; [reflexivity|].
  cbn [map traverse wire forallb]. destruct (encodable s); [|reflexivity].
  rewrite IH. cbn [andb]. now destruct (forallb encodable fs).
Qed.



Lemma wire_list_files_response (r : GitHubListFilesResponse.t) :
  wire (list_files_response_json r)
  = if forallb encodable (GitHubListFilesResponse.files r)
       && encodable (GitHubListFilesResponse.repository r)
       && encodable (GitHubListFilesResponse.owner r)
       && match GitHubListFilesResponse.message r with
          | Some text => encodable text
          | None => true
          end
    then Some (list_files_response_json r)
    else None.
Proof.
  destruct r as [fs repository owner success [text|]]; unfold list_files_response_json;
    cbn [GitHubListFilesResponse.files GitHubListFilesResponse.repository
         GitHubListFilesResponse.owner GitHubListFilesResponse.success
         GitHubListFilesResponse.message wire traverse option_map];
    rewrite !encodable_lit, traverse_strings;
    (destruct (forallb encodable fs); [|reflexivity]);
    (destruct (encodable repository); [|reflexivity]);
    (destruct (encodable owner); [|reflexivity]);
    try destruct (encodable text); reflexivity.
Qed.



Lemma app_list_files (up : Upstream) (url : str) (r : GitHubListFilesResponse.t)
      (body : pyval) :
  list_files up {| repo_url := url |} = Ok r ->
  wire (list_files_response_json r) = Some body ->
  http_list_github_files (fastapi_app up) url = body.
Proof.
  intros H Hw. unfold http_list_github_files, fastapi_app. cbn [post_list_files].
  rewrite H. unfold served. now rewrite Hw.
Qed.

Lemma app_list_files_lost (up : Upstream) (url : str) (r : GitHubListFilesResponse.t) :
  list_files up {| repo_url := url |} = Ok r ->
  wire (list_files_response_json r) = None ->
  http_list_github_files (fastapi_app up) url
  = PDict [(lit "error",
            PStr (lit "500 Server Error: Internal Server Error for url: http://localhost:8000/github/list-files"));
           (lit "success", PBool false)].
Proof.
  intros H Hw. unfold http_list_github_files, fastapi_app. cbn [post_list_files].
  rewrite H. unfold served. now rewrite Hw.
Qed.

(** Owner and repository are parts of the query, and as encodable as it is. *)
Lemma names_are_encodable (q : str) (m : Match) (ref : RepoRef) :
  re_search url_pattern q = Some m ->
  parse_github_url (group0 m) = Some ref ->
  encodable q = true ->
  encodable (owner ref) = true /\ encodable (repo ref) = true.
Proof.
  intros Hs Hp Henc. apply re_search_some in Hs as (pre & post & -> & _).
  apply parse_github_url_longest in Hp as (scheme & www & tail & Hurl & _).
  rewrite Hurl in Henc. rewrite !encodable_app in Henc.
  repeat match goal with
         | H : _ && _ = true |- _ => apply andb_true_iff in H; destruct H
         end.
  now split.
Qed.

Lemma list_files_listing (up : Upstream) (listing : GitHubListFilesRequest)
      (ref : RepoRef) (items : list pyval) :
  parse_github_url (repo_url listing) = Some ref ->
  lists_entries (github_get up (contents_url (owner ref) (repo ref) [])) items ->
  list_files up listing
  = Ok {| GitHubListFilesResponse.files := map dedicated_line items;
          GitHubListFilesResponse.repository := repo ref;
          GitHubListFilesResponse.owner := owner ref;
          GitHubListFilesResponse.success := true;
          GitHubListFilesResponse.message := None |}.
Proof.
  intros Hp [Hget Hitems].
  rewrite (list_files_for_repository up listing Hp). cbv zeta.
  unfold list_github_repo_files. rewrite Hget. cbn [Z.eqb Pos.eqb].
  rewrite (key_in_listing _ Hitems). unfold bind. cbv iota. simpl iterate. cbv iota.
  now rewrite (dedicated_listing_entries Hitems).
Qed.

Lemma generate_response_files (client : ModelContextClient.t) (q : str)
      (m : Match) (s o r : pyval) (items : list pyval) :
  github_request q = true ->
  re_search url_pattern q = Some m ->
  get (ModelContextClient.list_github_files client (group0 m)) (lit "success") (PBool false)
  = Ok s ->
  truthy s = true ->
  get (ModelContextClient.list_github_files client (group0 m)) (lit "files") (PList [])
  = Ok (PList items) ->
  items <> [] ->
  get (ModelContextClient.list_github_files client (group0 m)) (lit "owner") PNone = Ok o ->
  get (ModelContextClient.list_github_files client (group0 m)) (lit "repository") PNone
  = Ok r ->
  generate_response client q
  = ([ListGithubFiles (group0 m)],
     (strs <- all_str items ;;
      Ok (PStr ((lit "Files in " ++ format o ++ lit "/" ++ format r ++ lit ":"
                 ++ [newline; newline]) ++ join [newline] strs)))%py).
Proof.
  intros Hk Hs Hget Htrue Hfiles Hne Ho Hr.
  unfold generate_response. rewrite Hk, Hs. cbv zeta.
  unfold tbind at 1. unfold call_list_github_files.
  unfold tbind at 1. unfold lift at 1. rewrite Hget, Htrue.
  unfold tbind at 1. unfold lift at 1. rewrite Hfiles.
  assert (truthy (PList items) = true) as -> by (now destruct items).
  unfold tbind, lift, ret. rewrite Ho, Hr. unfold join_values, iterate, bind.
  now destruct (all_str items).
Qed.


(** A listing query on a repository that GitHub lists, from end to end,
    when the query holds no lone surrogate.  When the paths GitHub gave
    hold none either, the client makes one post, to the dedicated
    endpoint, and the user is shown the heading with owner and repository
    and then one line per entry, in the order GitHub gave them, with its
    marker and its path; or, for a repository without entries, the
    sentence that it appears to be empty.  When a path cannot be encoded,
    the dedicated post is answered 500 and the client goes on to the
    context endpoint. *)
Theorem listing_query_end_to_end (up : Upstream) (q : str) (m : Match) (ref : RepoRef)
        (items : list pyval) :
  github_request q = true ->
  re_search url_pattern q = Some m ->
  parse_github_url (group0 m) = Some ref ->
  lists_entries (github_get up (contents_url (owner ref) (repo ref) [])) items ->
  encodable q = true ->
  (forallb encodable (map dedicated_line items) = true ->
   items <> [] ->
   generate_response (http_client (fastapi_app up)) q
   = ([ListGithubFiles (group0 m)],
      Ok (PStr ((lit "Files in " ++ owner ref ++ lit "/" ++ repo ref ++ lit ":"
                 ++ [newline; newline]) ++ join [newline] (map dedicated_line items)))))
  /\ (items = [] ->
      generate_response (http_client (fastapi_app up)) q
      = ([ListGithubFiles (group0 m)],
         Ok (PStr (lit "The repository " ++ owner ref ++ lit "/" ++ repo ref
                   ++ lit " appears to be empty."))))
  /\ (forallb encodable (map dedicated_line items) = false ->
      fst (generate_response (http_client (fastapi_app up)) q)
      = [ListGithubFiles (group0 m); GetContext q]).
Proof.
  intros Hk Hs Hp Hlist Henc.
  destruct (names_are_encodable q Hs Hp Henc) as [Howner Hrepo].
  pose proof (@list_files_listing up {| repo_url := group0 m |} ref items Hp Hlist) as Hr.
  pose proof (wire_list_files_response
                {| GitHubListFilesResponse.files := map dedicated_line items;
                   GitHubListFilesResponse.repository := repo ref;
                   GitHubListFilesResponse.owner := owner ref;
                   GitHubListFilesResponse.success := true;
                   GitHubListFilesResponse.message := None |}) as Hwire.
  cbn [GitHubListFilesResponse.files GitHubListFilesResponse.repository
       GitHubListFilesResponse.owner GitHubListFilesResponse.message] in Hwire.
  rewrite Howner, Hrepo in Hwire.
  assert (forallb encodable (map dedicated_line items) = true ->
          ModelContextClient.list_github_files (http_client (fastapi_app up)) (group0 m)
          = list_files_response_json
              {| GitHubListFilesResponse.files := map dedicated_line items;
                 GitHubListFilesResponse.repository := repo ref;
                 GitHubListFilesResponse.owner := owner ref;
                 GitHubListFilesResponse.success := true;
                 GitHubListFilesResponse.message := None |}) as Hres.
  { intros Hlines. rewrite Hlines in Hwire.
    cbn [ModelContextClient.list_github_files http_client].
    exact (app_list_files _ _ Hr Hwire). }
  split; [|split].
  - intros Hlines Hne. specialize (Hres Hlines).
    rewrite (@generate_response_files (http_client (fastapi_app up)) q m (PBool true)
               (PStr (owner ref)) (PStr (repo ref)) (map PStr (map dedicated_line items))
               Hk Hs).
    + now rewrite all_str_of_strings.
    + now rewrite Hres.
    + reflexivity.
    + now rewrite Hres.
    + destruct items; [congruence | discriminate].
    + now rewrite Hres.
    + now rewrite Hres.
  - intros ->. specialize (Hres eq_refl).
    destruct (@generate_response_empty (http_client (fastapi_app up)) q m (PBool true)
                (PList []) Hk Hs) as (o & r & Ho & Hrp & Hresp);
      [now rewrite Hres | reflexivity | now rewrite Hres | reflexivity |].
    rewrite Hres in Ho, Hrp. injection Ho as <-. injection Hrp as <-. exact Hresp.
  - intros Hlines. rewrite Hlines in Hwire.
    assert (ModelContextClient.list_github_files (http_client (fastapi_app up)) (group0 m)
            = PDict [(lit "error",
                      PStr (lit "500 Server Error: Internal Server Error for url: http://localhost:8000/github/list-files"));
                     (lit "success", PBool false)]) as Hlost.
    { cbn [ModelContextClient.list_github_files http_client].
      exact (app_list_files_lost _ _ Hr Hwire). }
    rewrite (@generate_response_fallback (http_client (fastapi_app up)) q m (PBool false)
               Hk Hs); [reflexivity | now rewrite Hlost | reflexivity].
Qed.


(** A body GitHub answers 200 with that is an object, not a list, and
    has no [error] key, from end to end: both handlers raise, both posts
    are answered 500, and the user is told of an unknown error. *)
Theorem handler_exception_end_to_end (up : Upstream) (q : str) (m : Match) (ref : RepoRef)
        (entries : list (str * pyval)) :
  github_request q = true ->
  re_search url_pattern q = Some m ->
  parse_github_url (group0 m) = Some ref ->
  github_get up (contents_url (owner ref) (repo ref) [])
  = Response 200 (JsonValue (PDict entries)) ->
  lookup (lit "error") entries = None ->
  entries <> [] ->
  list_files up {| repo_url := group0 m |} = Raise TypeError
  /\ get_context up (request_data q) = Raise TypeError
  /\ generate_response (http_client (fastapi_app up)) q
     = ([ListGithubFiles (group0 m); GetContext q],
        Ok (PStr (lit "Sorry, I couldn't list the GitHub repository files: Unknown error"))).
Proof.
  intros Hk Hs Hp Hget Hnone Hne.
  assert (list_github_repo_files up (owner ref) (repo ref) [] = PDict entries) as Hfiles.
  { unfold list_github_repo_files. now rewrite Hget. }
  assert (list_files up {| repo_url := group0 m |} = Raise TypeError) as Hlist.
  { rewrite (@list_files_for_repository up {| repo_url := group0 m |} ref Hp). cbv zeta.
    rewrite Hfiles. unfold key_in, bind. rewrite Hnone.
    destruct entries as [|[k v] rest]; [congruence | reflexivity]. }
  assert (get_context up (request_data q) = Raise TypeError) as Hctx.
  { rewrite (@get_context_listing_path up (request_data q) m ref Hk Hs Hp). cbv zeta.
    rewrite Hfiles. unfold key_in, bind. rewrite Hnone. simpl negb. cbv iota.
    destruct entries as [|[k v] rest]; [congruence | reflexivity]. }
  split; [exact Hlist|]. split; [exact Hctx|].
  assert (ModelContextClient.list_github_files (http_client (fastapi_app up)) (group0 m)
          = PDict [(lit "error",
                    PStr (lit "500 Server Error: Internal Server Error for url: http://localhost:8000/github/list-files"));
                   (lit "success", PBool false)]) as Hres.
  { cbn [ModelContextClient.list_github_files http_client].
    unfold http_list_github_files, fastapi_app. cbn [post_list_files]. now rewrite Hlist. }
  rewrite (@generate_response_fallback (http_client (fastapi_app up)) q m (PBool false) Hk Hs);
    [| now rewrite Hres | reflexivity].
  cbv zeta. cbn [ModelContextClient.get_context http_client]. rewrite Hres.
  unfold http_get_context, fastapi_app. cbn [post_context]. now rewrite Hctx.
Qed.

End Program.

(** * Worked cases *)

(** C1, as the specification words it, fails on a host written in
    capitals: the query names a GitHub URL when the host is compared
    without regard to case, and has the keywords, yet it is classified as
    generic. *)
Lemma mixed_case_host_is_generic :
  classify ascii_case_only mixed_case_query = Generic
  /\ (exists pre u post,
         mixed_case_query = pre ++ u ++ post /\ github_url_any_case u)
  /\ listing_keywords ascii_case_only mixed_case_query.
Proof.
  split; [vm_compute; reflexivity|]. split.
  - exists (lit "list files from "), (lit "https://GitHub.com/acme/widget"), [].
    split; [vm_compute; reflexivity|].
    exists (lit "https://"), (lit "GitHub.com"), (lit "acme"), (lit "widget").
    split; [vm_compute; reflexivity|]. split; [now right|].
    split; [left; vm_compute; reflexivity|].
    split; apply all_url_segment_char; (split; [discriminate | repeat constructor]).
  - apply github_request_iff. vm_compute. reflexivity.
Qed.

(** A query with the keywords and a URL whose repository starts with a
    dot: the URL is found and does not parse. *)
Example hidden_repository_does_not_parse :
  get_context ascii_case_only plain_repr github_two_entries (request_for hidden_repo_query)
  = Ok (context_response
          [element
             (PStr (lit "The GitHub URL provided is not valid. Please provide a URL in the format: https://github.com/owner/repo"))
             (lit "github_url_parser") 0.9%float]
          hidden_repo_query).
Proof. vm_compute. reflexivity. Qed.



Example not_found_content :
  get_context ascii_case_only plain_repr github_not_found (request_for listing_query)
  = Ok (context_response
          [element (PStr (lit "Error accessing GitHub repository: Not Found"))
                   (lit "github_api_error") 0.9%float]
          listing_query).
Proof. vm_compute. reflexivity. Qed.

(** C7 on one file [readme.md] and one directory [src], in that order
    upstream: [src] is listed first. *)
Lemma src_before_readme :
  lists_entries
    (github_get github_two_entries (contents_url (lit "acme") (lit "widget") []))
    [entry (lit "readme.md") (lit "readme.md") (lit "file");
     entry (lit "src") (lit "src") (lit "dir")]
  /\ get_context ascii_case_only plain_repr github_two_entries (request_for listing_query)
     = Ok (context_response
             [element
                (PStr (lit "Repository: acme/widget" ++ [newline; newline]
                       ++ lit "Files and directories:" ++ [newline]
                       ++ folder_marker ++ lit "src" ++ [newline]
                       ++ file_marker ++ lit "readme.md"))
                (lit "github_api") 0.95%float]
             listing_query).
Proof.
  assert (lists_entries
            (github_get github_two_entries (contents_url (lit "acme") (lit "widget") []))
            [entry (lit "readme.md") (lit "readme.md") (lit "file");
             entry (lit "src") (lit "src") (lit "dir")]) as Hlist.
  { split; [reflexivity|].
    repeat constructor; do 3 eexists; repeat split; reflexivity. }
  split; [exact Hlist|].
  rewrite (@directories_before_files ascii_case_only plain_repr github_two_entries
             (request_for listing_query) widget_match widget_ref _
             ltac:(vm_compute; reflexivity) ltac:(vm_compute; reflexivity)
             ltac:(vm_compute; reflexivity) Hlist).
  vm_compute. reflexivity.
Defined.


(** C9 on a listing that succeeds. *)
Lemma listing_response_has_one_element :
  exists resp,
    get_context ascii_case_only plain_repr github_two_entries (request_for listing_query)
    = Ok resp
    /\ length (context_elements resp) = 1
    /\ exists md,
         metadata resp = Some md
         /\ lookup (lit "query") md = Some (PStr listing_query)
         /\ lookup (lit "processing_time_ms") md = Some (PInt 150).
Proof.
  destruct (get_context ascii_case_only plain_repr github_two_entries
              (request_for listing_query)) as [resp | e] eqn:H.
  - exists resp. split; [reflexivity|].
    exact (@one_element_and_metadata ascii_case_only plain_repr github_two_entries
             (request_for listing_query) resp H).
  - vm_compute in H. discriminate H.
Defined.

(** C3 on a question about a repository, without the keywords. *)
Lemma about_query_is_answered_by_the_model :
  classify ascii_case_only about_query = Generic
  /\ exists resp e,
       get_context ascii_case_only plain_repr model_says_paris (request_for about_query)
       = Ok resp
       /\ context_elements resp = [e]
       /\ lookup (lit "source") e = Some (PStr (lit "llama_model"))
       /\ lookup (lit "relevance_score") e = Some (PFloat 0.9%float).
Proof.
  split; [vm_compute; reflexivity|].
  apply (@generic_answer_source ascii_case_only plain_repr model_says_paris
           (request_for about_query)).
  vm_compute. reflexivity.
Defined.

(** C3, as the specification words it, fails on that query: the source
    tag the program writes is [llama_model], which is not [llm_model]. *)
Lemma generic_source_is_llama_model :
  classify ascii_case_only about_query = Generic
  /\ get_context ascii_case_only plain_repr model_says_paris (request_for about_query)
     = Ok (context_response
             [element (PStr (lit "Paris.")) (lit "llama_model") 0.9%float]
             about_query)
  /\ lookup (lit "source") (element (PStr (lit "Paris.")) (lit "llama_model") 0.9%float)
     = Some (PStr (lit "llama_model"))
  /\ str_eqb (lit "llama_model") (lit "llm_model") = false.
Proof. repeat split; vm_compute; reflexivity. Qed.

(** C8 on that query: the model said [Paris.], the content is [Paris.] *)
Lemma paris_comes_back_unmodified :
  classify ascii_case_only about_query = Generic
  /\ exists resp,
       get_context ascii_case_only plain_repr model_says_paris (request_for about_query)
       = Ok resp
       /\ first_content (context_elements resp) = Ok (PStr (lit "Paris.")).
Proof.
  split; [vm_compute; reflexivity|].
  destruct (@model_answer_unmodified ascii_case_only plain_repr model_says_paris
              (request_for about_query) ltac:(vm_compute; reflexivity))
    as (indent & resp & Hresp & _ & Hanswer).
  exists resp. split; [exact Hresp|].
  apply (Hanswer [(lit "response", PStr (lit "Paris."))]); reflexivity.
Defined.

(** C2 on a failed listing whose fallback answers. *)
Lemma fallback_returns_first_content :
  truthy (PBool false) = false
  /\ generate_response ascii_case_only plain_repr fallback_client listing_query
     = ([ListGithubFiles widget_url; GetContext listing_query],
        Ok (PStr (lit "Error accessing GitHub repository: Not Found"))).
Proof.
  split; [reflexivity|].
  destruct (@fallback_after_failure ascii_case_only plain_repr fallback_client
              listing_query widget_match (PBool false)
              ltac:(vm_compute; reflexivity) ltac:(vm_compute; reflexivity)
              ltac:(vm_compute; reflexivity)) as [Hfail _].
  destruct (Hfail eq_refl) as [Hcalls Hanswer].
  rewrite (surjective_pairing (generate_response _ _ _ _)), Hcalls.
  rewrite (Hanswer (PList [PDict [(lit "content",
                                   PStr (lit "Error accessing GitHub repository: Not Found"));
                                  (lit "source", PStr (lit "github_api_error"));
                                  (lit "relevance_score", PFloat 0.9%float)]]));
    reflexivity.
Defined.

(** C2, as the specification words it, fails twice.  A dedicated call
    that succeeds with an empty files list is not followed by a context
    call: the client answers that the repository appears to be empty.
    And after a failed dedicated call, a context call that fails too
    leaves no element to return. *)
Lemma empty_listing_is_not_a_fallback :
  classify ascii_case_only listing_query = Listing
  /\ get (ModelContextClient.list_github_files empty_repository_client widget_url)
         (lit "files") (PList []) = Ok (PList [])
  /\ generate_response ascii_case_only plain_repr empty_repository_client listing_query
     = ([ListGithubFiles widget_url],
        Ok (PStr (lit "The repository acme/widget appears to be empty.")))
  /\ generate_response ascii_case_only plain_repr
       (failing_client (lit "500 Server Error")) listing_query
     = ([ListGithubFiles widget_url; GetContext listing_query],
        Ok (PStr (lit "Sorry, I couldn't list the GitHub repository files: Error accessing repository: Not Found"))).
Proof. repeat split; vm_compute; reflexivity. Qed.


(** ** Beyond the specification's sentences *)

Ltac by_running := vm_compute; reflexivity.
Ltac not_among := vm_compute; intros H; repeat (destruct H as [H | H]; [discriminate H|]); exact H.

(** [widget.js] is parsed as the repository [widget]. *)
Lemma widget_js_is_widget :
  parse_github_url (lit "https://github.com/acme/widget.js") = Some widget_ref.
Proof.
  apply (@repository_name_is_cut (lit "https://") [] (lit "acme") (lit "widget")
           (chr ".") (lit "js")).
  - right. right. reflexivity.
  - left. reflexivity.
  - split; [discriminate | not_among].
  - split; [discriminate|]. split; not_among.
  - left. reflexivity.
Defined.

(** [http://www.] in front changes nothing. *)
Lemma http_www_changes_nothing :
  parse_github_url (lit "http://www.github.com/acme/widget")
  = parse_github_url (lit "github.com/acme/widget").
Proof.
  apply (@scheme_and_www_are_ignored (lit "http://") (lit "www.") (lit "acme/widget")).
  - right. left. reflexivity.
  - right. reflexivity.
Defined.

(** The URL of [acme/.github] is found, and its repository segment starts with a dot. *)
Lemma hidden_repository_is_found :
  re_search url_pattern hidden_repo_query = Some hidden_match
  /\ exists scheme www o r,
       group0 hidden_match = scheme ++ www ++ lit "github.com/" ++ o ++ lit "/" ++ r
       /\ url_segment o /\ url_segment r
       /\ (parse_github_url (group0 hidden_match) = None <-> exists r', r = chr "." :: r')
       /\ forall ref,
            parse_github_url (group0 hidden_match) = Some ref ->
            owner ref = o
            /\ exists tail,
                 r = repo ref ++ tail /\ (tail = [] \/ exists t, tail = chr "." :: t).
Proof.
  split; [by_running|].
  apply (@found_url_parses_unless_dot hidden_repo_query hidden_match). by_running.
Defined.

(** The sample listing query has "github" in its URL. *)
Lemma listing_query_has_the_keyword :
  forallb is_ascii listing_query = true
  /\ contains (lit "github") (lower ascii_case_only listing_query) = true
  /\ (classify ascii_case_only listing_query = Listing <->
      contains (lit "list") (lower ascii_case_only listing_query)
      || contains (lit "files") (lower ascii_case_only listing_query) = true).
Proof.
  split; [by_running|].
  apply (@github_keyword_is_implied ascii_case_only listing_query widget_match); by_running.
Defined.

(** The model cannot be reached: the response is built, around a text that starts with [Error]. *)
Lemma model_down_is_answered :
  classify ascii_case_only about_query = Generic
  /\ exists reason,
       get_context ascii_case_only plain_repr github_not_found (request_for about_query)
       = Ok (context_response
               [element (PStr (lit "Error" ++ reason)) (lit "llama_model") 0.9%float]
               about_query).
Proof.
  split; [by_running|].
  destruct (@model_failure_is_served_as_content ascii_case_only plain_repr github_not_found
              (request_for about_query) ltac:(by_running)) as [Hdown _].
  apply Hdown. intros prompt. exact I.
Defined.

(** A 202 is reported as an error, under its status code. *)
Lemma accepted_is_an_error :
  names_repository ascii_case_only listing_query widget_ref
  /\ get_context ascii_case_only plain_repr github_accepted (request_for listing_query)
     = Ok (context_response
             [element
                (PStr (lit "Error accessing GitHub repository: Error: Status code 202"))
                (lit "github_api_error") 0.9%float]
             listing_query).
Proof.
  assert (names_repository ascii_case_only listing_query widget_ref) as Hq.
  { split; [by_running|]. exists widget_match. split; by_running. }
  split; [exact Hq|].
  destruct (@any_status_but_200_is_a_failure ascii_case_only plain_repr github_accepted
              (request_for listing_query) widget_ref 202%Z (JsonValue (PDict []))
              Hq eq_refl ltac:(discriminate))
    as (reason & Hresp & _ & Hcode & _).
  rewrite (Hcode [] eq_refl eq_refl) in Hresp. exact Hresp.
Defined.

(** The object of one file where a list is expected: the handler raises. *)
Lemma object_makes_the_handler_raise :
  names_repository ascii_case_only listing_query widget_ref
  /\ get_context ascii_case_only plain_repr github_answers_object (request_for listing_query)
     = Raise TypeError.
Proof.
  assert (names_repository ascii_case_only listing_query widget_ref) as Hq.
  { split; [by_running|]. exists widget_match. split; by_running. }
  split; [exact Hq|].
  destruct (@object_body_on_the_listing_path ascii_case_only plain_repr github_answers_object
              (request_for listing_query) widget_ref
              [(lit "name", PStr (lit "readme.md")); (lit "path", PStr (lit "readme.md"));
               (lit "type", PStr (lit "file"))]
              Hq eq_refl) as (_ & Hraise & _).
  apply Hraise; [reflexivity | discriminate].
Defined.

(** The response to a 404 is on the second row of the table. *)
Lemma not_found_row :
  exists content source score,
    [element (PStr (lit "Error accessing GitHub repository: Not Found"))
             (lit "github_api_error") 0.9%float]
    = [element content source score]
    /\ ((source = lit "github_api" /\ score = 0.95%float /\ exists s, content = PStr s)
        \/ (source = lit "github_api_error" /\ score = 0.9%float
            /\ exists s, content = PStr s)
        \/ (source = lit "github_url_parser" /\ score = 0.9%float
            /\ exists s, content = PStr s)
        \/ (source = lit "llama_model" /\ score = 0.9%float)).
Proof.
  apply (@sources_and_scores ascii_case_only plain_repr github_not_found
           (request_for listing_query)
           (context_response
              [element (PStr (lit "Error accessing GitHub repository: Not Found"))
                       (lit "github_api_error") 0.9%float]
              listing_query)).
  by_running.
Defined.

(** The dedicated answer to a 404: no files, the repository named, a message. *)
Lemma not_found_answer_is_consistent :
  exists r,
    list_files plain_repr github_not_found widget_listing = Ok r
    /\ (GitHubListFilesResponse.success r = true <-> GitHubListFilesResponse.message r = None)
    /\ GitHubListFilesResponse.files r = []
    /\ GitHubListFilesResponse.owner r = lit "acme"
    /\ GitHubListFilesResponse.repository r = lit "widget".
Proof.
  exists {| GitHubListFilesResponse.files := [];
            GitHubListFilesResponse.repository := lit "widget";
            GitHubListFilesResponse.owner := lit "acme";
            GitHubListFilesResponse.success := false;
            GitHubListFilesResponse.message :=
              Some (lit "Error accessing repository: Not Found") |}.
  split; [by_running|].
  destruct (@list_files_answers_are_consistent plain_repr github_not_found widget_listing
              {| GitHubListFilesResponse.files := [];
                 GitHubListFilesResponse.repository := lit "widget";
                 GitHubListFilesResponse.owner := lit "acme";
                 GitHubListFilesResponse.success := false;
                 GitHubListFilesResponse.message :=
                   Some (lit "Error accessing repository: Not Found") |}
              ltac:(by_running)) as (Hmessage & Hfiles & _ & _ & Hnames).
  split; [exact Hmessage|]. split; [apply Hfiles; reflexivity|].
  apply (Hnames widget_ref). by_running.
Defined.

(** A 404 through both endpoints. *)
Lemma not_found_through_both_endpoints :
  not_ok (github_get github_not_found (contents_url (lit "acme") (lit "widget") []))
  /\ exists reason,
       list_files plain_repr github_not_found widget_listing
       = Ok {| GitHubListFilesResponse.files := [];
               GitHubListFilesResponse.repository := lit "widget";
               GitHubListFilesResponse.owner := lit "acme";
               GitHubListFilesResponse.success := false;
               GitHubListFilesResponse.message :=
                 Some (lit "Error accessing repository: " ++ format plain_repr reason) |}
       /\ get_context ascii_case_only plain_repr github_not_found (request_for listing_query)
          = Ok (context_response
                  [element
                     (PStr (lit "Error accessing GitHub repository: "
                            ++ format plain_repr reason))
                     (lit "github_api_error") 0.9%float]
                  listing_query).
Proof.
  split; [simpl; discriminate|].
  apply (@both_endpoints_report_the_same_reason ascii_case_only plain_repr github_not_found
           (request_for listing_query) widget_listing widget_ref).
  - split; [by_running|]. exists widget_match. split; by_running.
  - by_running.
  - simpl. discriminate.
Defined.


(** A backend that lists two entries keeps to the schema: a question is answered. *)
Lemma two_entries_backend_never_raises :
  answers_with_listings github_two_entries
  /\ (exists resp,
         get_context ascii_case_only plain_repr github_two_entries (request_for about_query)
         = Ok resp)
  /\ exists r, list_files plain_repr github_two_entries widget_listing = Ok r.
Proof.
  assert (answers_with_listings github_two_entries) as Hup.
  { intros url v [= <-]. eexists. split; [reflexivity|].
    repeat constructor; do 3 eexists; repeat split; reflexivity. }
  split; [exact Hup|].
  destruct (@no_exception_on_schema ascii_case_only plain_repr github_two_entries Hup)
    as [Hctx Hlist].
  split; [apply Hctx | apply Hlist].
Defined.

(** The files of [acme/widget], as the user sees them. *)
Lemma widget_files_are_shown :
  generate_response ascii_case_only plain_repr widget_client listing_query
  = ([ListGithubFiles widget_url],
     Ok (PStr (lit "Files in acme/widget:" ++ [newline; newline]
               ++ folder_marker ++ lit "src" ++ [newline]
               ++ file_marker ++ lit "readme.md"))).
Proof.
  destruct (@files_are_shown_one_per_line ascii_case_only plain_repr widget_client
              listing_query widget_match (PBool true)
              (PStr (lit "acme")) (PStr (lit "widget"))
              [PStr (folder_marker ++ lit "src"); PStr (file_marker ++ lit "readme.md")]
              ltac:(by_running) ltac:(by_running) eq_refl eq_refl eq_refl
              ltac:(discriminate) eq_refl eq_refl) as [Hshown _].
  exact (Hshown [folder_marker ++ lit "src"; file_marker ++ lit "readme.md"] eq_refl).
Defined.

(** A question to a server that answers 503. *)
Lemma unavailable_is_told :
  classify ascii_case_only about_query = Generic
  /\ generate_response ascii_case_only plain_repr
       (failing_client (lit "503 Service Unavailable")) about_query
     = ([GetContext about_query],
        Ok (PStr (lit "Sorry, I couldn't generate a proper response due to: 503 Service Unavailable"))).
Proof.
  split; [by_running|].
  exact (@generic_error_is_told ascii_case_only plain_repr
           (failing_client (lit "503 Service Unavailable")) about_query
           [(lit "error", PStr (lit "503 Service Unavailable"))]
           (PStr (lit "503 Service Unavailable"))
           ltac:(by_running) eq_refl eq_refl).
Defined.

(** A context answer without elements, on a question and after a failed listing. *)
Lemma no_elements_two_sentences :
  generate_response ascii_case_only plain_repr silent_client about_query
  = ([GetContext about_query],
     Ok (PStr (lit "I don't have enough information to answer that question.")))
  /\ generate_response ascii_case_only plain_repr silent_client listing_query
     = ([ListGithubFiles widget_url; GetContext listing_query],
        Ok (PStr (lit "I couldn't retrieve any information about the GitHub repository."))).
Proof.
  split.
  - destruct (@nothing_to_show ascii_case_only plain_repr silent_client about_query
                [(lit "context_elements", PList []);
                 (lit "metadata", PDict [(lit "processing_time_ms", PInt 150)])]
                eq_refl eq_refl) as [Hgeneric _].
    + right. exists (PList []). split; reflexivity.
    + apply Hgeneric. by_running.
  - destruct (@nothing_to_show ascii_case_only plain_repr silent_client listing_query
                [(lit "context_elements", PList []);
                 (lit "metadata", PDict [(lit "processing_time_ms", PInt 150)])]
                eq_refl eq_refl) as [_ Hlisting].
    + right. exists (PList []). split; reflexivity.
    + apply (Hlisting widget_match (PBool false)); by_running.
Defined.

(** No server to connect to: a sentence for a question, another for a listing. *)
Lemma connection_refused :
  generate_response ascii_case_only plain_repr (http_client server_down) about_query
  = ([GetContext about_query],
     Ok (PStr (lit "Sorry, I couldn't generate a proper response due to: Connection refused")))
  /\ exists m,
       re_search url_pattern listing_query = Some m
       /\ generate_response ascii_case_only plain_repr (http_client server_down) listing_query
          = ([ListGithubFiles (group0 m); GetContext listing_query],
             Ok (PStr (lit "Sorry, I couldn't list the GitHub repository files: Unknown error"))).
Proof.
  split.
  - destruct (@server_out_of_reach ascii_case_only plain_repr server_down about_query
                (lit "Connection refused") eq_refl
                (fun _ => ex_intro _ (lit "Connection refused") eq_refl)) as [Hgeneric _].
    apply Hgeneric. by_running.
  - destruct (@server_out_of_reach ascii_case_only plain_repr server_down listing_query
                (lit "Connection refused") eq_refl
                (fun _ => ex_intro _ (lit "Connection refused") eq_refl)) as [_ Hlisting].
    apply Hlisting. by_running.
Defined.

(** A session of one question, [Exit], and a line that is never read. *)
Lemma one_question_then_exit :
  main ascii_case_only plain_repr empty_repository_client
       [about_query; lit "Exit"; listing_query]
  = ([GetContext about_query],
     banner ++ [[newline] ++ lit "Assistant: An answer from the context call."],
     Exited).
Proof.
  refine (proj1 (@session_stops_at_exit ascii_case_only plain_repr empty_repository_client
                   [about_query] (lit "Exit") [listing_query] _ _)).
  - constructor; [|constructor]. split.
    + vm_compute. intros H. discriminate H.
    + eexists. by_running.
  - by_running.
Defined.


(** A model that answers [NaN]: the user is shown [None]. *)
Example nan_arrives_as_none :
  generate_response ascii_case_only plain_repr
    (http_client (fastapi_app ascii_case_only plain_repr model_says_nan)) about_query
  = ([GetContext about_query], Ok PNone).
Proof. vm_compute. reflexivity. Qed.

(** A question with a lone surrogate: the post is answered 500. *)
Example surrogate_question_is_lost :
  classify ascii_case_only surrogate_query = Generic
  /\ generate_response ascii_case_only plain_repr
       (http_client (fastapi_app ascii_case_only plain_repr model_says_paris)) surrogate_query
     = ([GetContext surrogate_query],
        Ok (PStr (lit "Sorry, I couldn't generate a proper response due to: 500 Server Error: Internal Server Error for url: http://localhost:8000/context"))).
Proof. split; vm_compute; reflexivity. Qed.

(** The listing of [acme/widget] through the server of this repository. *)
Lemma widget_listing_end_to_end :
  generate_response ascii_case_only plain_repr
    (http_client (fastapi_app ascii_case_only plain_repr github_two_entries)) listing_query
  = ([ListGithubFiles widget_url],
     Ok (PStr (lit "Files in acme/widget:" ++ [newline; newline]
               ++ file_marker ++ lit "readme.md" ++ [newline]
               ++ folder_marker ++ lit "src"))).
Proof.
  destruct (@listing_query_end_to_end ascii_case_only plain_repr github_two_entries
              listing_query widget_match widget_ref
              [entry (lit "readme.md") (lit "readme.md") (lit "file");
               entry (lit "src") (lit "src") (lit "dir")]
              ltac:(by_running) ltac:(by_running) ltac:(by_running)) as [Hshown _].
  - split; [reflexivity|]. repeat constructor; do 3 eexists; repeat split; reflexivity.
  - by_running.
  - apply Hshown; [by_running | discriminate].
Defined.


(** An object where a list is expected, through the server of this repository. *)
Lemma object_end_to_end :
  list_files plain_repr github_answers_object widget_listing = Raise TypeError
  /\ get_context ascii_case_only plain_repr github_answers_object (request_data listing_query)
     = Raise TypeError
  /\ generate_response ascii_case_only plain_repr
       (http_client (fastapi_app ascii_case_only plain_repr github_answers_object))
       listing_query
     = ([ListGithubFiles widget_url; GetContext listing_query],
        Ok (PStr (lit "Sorry, I couldn't list the GitHub repository files: Unknown error"))).
Proof.
  apply (@handler_exception_end_to_end ascii_case_only plain_repr github_answers_object
           listing_query widget_match widget_ref
           [(lit "name", PStr (lit "readme.md")); (lit "path", PStr (lit "readme.md"));
            (lit "type", PStr (lit "file"))]);
    first [ by_running | discriminate ].
Defined.
